(** * react-native-notifier: the notification scheduler of [NotifierRoot]

    A shallow embedding of [src/Notifier.tsx] and [src/types.ts].

    The component is a single-threaded, callback-driven state machine.  Its
    private fields become the record [NotifierRoot]; every method becomes a
    function [NotifierRoot -> NotifierRoot] whose argument is called [this];
    the environment (callers, timer, animation driver, gesture handler,
    touchable) drives it through [Event]s.

    What belongs to React Native rather than to this repository is kept
    abstract:
    - [Animated.timing(...).start(cb)] records the configuration in the
      effect log and in the list of running animations; the completion
      callback runs when the environment delivers [AnimationEnd];
    - [setTimeout]/[clearTimeout] on [hideTimer]: the field holds the delay of
      the pending timeout, or [None] once it is cleared or has fired;
    - user callbacks ([onStartHiding], [onHidden], [onPress], the end
      callback of [hideNotification]) are opaque names; calling one appends
      [Invoke] to the effect log, and it does not call back into the
      notifier;
    - [setState] takes effect at once;
    - the rendered position ([translateY], [hiddenComponentValue], [onLayout])
      and the content renderer ([Component], [componentProps]) are left out:
      where the source animates to [hiddenComponentValue] or
      [MAX_TRANSLATE_Y] the model keeps a symbolic target.

    The animation driver is embedded twice.  In the first embedding every
    started animation runs until the environment ends it.  In the module
    [Stopping] the driver is React Native's: [translateY] runs one animation
    at a time, and starting an animation, setting the value or unmounting
    stops the one that runs and runs its end callback at once.  There the
    parent may also pass new [props] at any time.  Statements about
    [this.state.id] are made over the field itself, since React may apply a
    [setState] later than the call.

    JavaScript objects have identity: [showNotification] builds a new
    [params] object on every call, while [showCurrentLater] stores the very
    object held in [currentParams].  Objects therefore carry the address they
    were allocated at. *)

From Stdlib Require Import Bool List String Arith QArith Lia Lqa.
Import ListNotations.

Local Open Scope nat_scope.
Local Open Scope string_scope.
Local Open Scope list_scope.
Local Open Scope bool_scope.

(* ================================================================== *)
(** ** JavaScript values used by the component *)

Module JS.

(** A [number]: finite values compare as rationals; [NaN] compares false
    with everything. *)
Inductive number : Type :=
| NaN
| Num (q : Q).

Definition isNaN (n : number) : bool :=
  match n with NaN => true | Num _ => false end.

(** Truthiness of a number: neither [0] nor [NaN]. *)
Definition truthy_number (n : number) : bool :=
  match n with NaN => false | Num q => negb (Qeq_bool q 0) end.

(** Unary minus. *)
Definition neg (n : number) : number :=
  match n with NaN => NaN | Num q => Num (- q) end.

(** [a < b]. *)
Definition lt (a b : number) : bool :=
  match a, b with
  | Num x, Num y => negb (Qle_bool y x)
  | _, _ => false
  end.

(** An optional property of an object: missing, present with the value
    [undefined], or present with a value. *)
Inductive prop (A : Type) : Type :=
| Absent
| Undefined
| Val (a : A).
Arguments Absent {A}.
Arguments Undefined {A}.
Arguments Val {A} a.

(** Reading a property: [None] is [undefined]. *)
Definition get {A} (p : prop A) : option A :=
  match p with Val a => Some a | _ => None end.

(** One property of [{...a, ...b}]: every own property of [b] wins, also
    one that holds [undefined]. *)
Definition spread {A} (a b : prop A) : prop A :=
  match b with Absent => a | _ => b end.

(** [x ?? d]. *)
Definition nullish {A} (x : option A) (d : A) : A :=
  match x with Some a => a | None => d end.

(** [x ?? y] where [y] may be [undefined] too. *)
Definition nullish_opt {A} (x y : option A) : option A :=
  match x with Some a => Some a | None => y end.

Definition truthy_bool (x : option bool) : bool :=
  match x with Some true => true | _ => false end.

(** A string is truthy unless it is empty. *)
Definition truthy_string (x : option string) : bool :=
  match x with Some s => negb (s =? EmptyString) | None => false end.

(** [x === y] on values that are a string or [undefined]. *)
Definition strict_eq_string (x y : option string) : bool :=
  match x, y with
  | Some a, Some b => a =? b
  | None, None => true
  | _, _ => false
  end.

(** [x === s] against a string literal (a [case] label). *)
Definition case_label (x : option string) (s : string) : bool :=
  strict_eq_string x (Some s).

End JS.
Import JS.

(* ================================================================== *)
(** ** Constants ([src/constants.ts]) *)

(** Modelled from the spec: [src/constants.ts] is missing; the spec's default
    parameter table gives animationDuration=300. *)
Definition DEFAULT_ANIMATION_DURATION : number := Num (300 # 1).

(** Modelled from the spec: [src/constants.ts] is missing; the spec's default
    parameter table gives duration=3000. *)
Definition DEFAULT_DURATION : number := Num (3000 # 1).

(** Modelled from the spec: [src/constants.ts] is missing; the spec's default
    parameter table gives swipeEnabled=true. *)
Definition DEFAULT_SWIPE_ENABLED : bool := true.

(** Modelled from the spec: [src/constants.ts] is missing; the spec's default
    parameter table gives swipeAnimationDuration=200. *)
Definition SWIPE_ANIMATION_DURATION : number := Num (200 # 1).

(** Modelled from the spec: [src/constants.ts] is missing; the spec's default
    parameter table gives swipePixelsToClose=20. *)
Definition SWIPE_PIXELS_TO_CLOSE : number := Num (20 # 1).

(* ================================================================== *)
(** ** Types ([src/types.ts]) *)

Module Types.

(** A user callback, known by name only. *)
Definition Callback : Type := string.

(** An easing function, known by name only. *)
Definition Easing : Type := string.

Record ShowParams : Type := {
  animationDuration : prop number;
  showAnimationDuration : prop number;
  hideAnimationDuration : prop number;
  easing : prop Easing;
  showEasing : prop Easing;
  hideEasing : prop Easing;
  onStartHiding : prop Callback;
  onHidden : prop Callback;
  onPress : prop Callback;
  hideOnPress : prop bool;
  swipePixelsToClose : prop number;
  swipeEasing : prop Easing;
  swipeAnimationDuration : prop number;
  duration : prop number
}.

(** [ShowNotificationParams extends ShowParams]; [queueMode] is kept as a
    string so that values outside [QueueMode] can be given. *)
Record ShowNotificationParams : Type := {
  base : ShowParams;
  id : prop string;
  skipAlreadyShown : prop bool;
  skipAlreadyInQueue : prop bool;
  strong : prop bool;
  title : prop string;
  description : prop string;
  swipeEnabled : prop bool;
  queueMode : prop string
}.

Record StateInterface : Type := {
  state_id : option string;
  state_title : option string;
  state_description : option string;
  state_swipeEnabled : bool
}.

(** [{...a, ...b}] on [ShowParams]. *)
Definition spread_ShowParams (a b : ShowParams) : ShowParams := {|
  animationDuration := spread (animationDuration a) (animationDuration b);
  showAnimationDuration := spread (showAnimationDuration a) (showAnimationDuration b);
  hideAnimationDuration := spread (hideAnimationDuration a) (hideAnimationDuration b);
  easing := spread (easing a) (easing b);
  showEasing := spread (showEasing a) (showEasing b);
  hideEasing := spread (hideEasing a) (hideEasing b);
  onStartHiding := spread (onStartHiding a) (onStartHiding b);
  onHidden := spread (onHidden a) (onHidden b);
  onPress := spread (onPress a) (onPress b);
  hideOnPress := spread (hideOnPress a) (hideOnPress b);
  swipePixelsToClose := spread (swipePixelsToClose a) (swipePixelsToClose b);
  swipeEasing := spread (swipeEasing a) (swipeEasing b);
  swipeAnimationDuration := spread (swipeAnimationDuration a) (swipeAnimationDuration b);
  duration := spread (duration a) (duration b)
|}.

(** [{...a, ...b}] on [ShowNotificationParams]. *)
Definition spread_params (a b : ShowNotificationParams) : ShowNotificationParams := {|
  base := spread_ShowParams (base a) (base b);
  id := spread (id a) (id b);
  skipAlreadyShown := spread (skipAlreadyShown a) (skipAlreadyShown b);
  skipAlreadyInQueue := spread (skipAlreadyInQueue a) (skipAlreadyInQueue b);
  strong := spread (strong a) (strong b);
  title := spread (title a) (title b);
  description := spread (description a) (description b);
  swipeEnabled := spread (swipeEnabled a) (swipeEnabled b);
  queueMode := spread (queueMode a) (queueMode b)
|}.

(** The object with no property, [{}]. *)
Definition empty_ShowParams : ShowParams := {|
  animationDuration := Absent; showAnimationDuration := Absent;
  hideAnimationDuration := Absent; easing := Absent; showEasing := Absent;
  hideEasing := Absent; onStartHiding := Absent; onHidden := Absent;
  onPress := Absent; hideOnPress := Absent; swipePixelsToClose := Absent;
  swipeEasing := Absent; swipeAnimationDuration := Absent; duration := Absent
|}.

Definition empty_params : ShowNotificationParams := {|
  base := empty_ShowParams; id := Absent; skipAlreadyShown := Absent;
  skipAlreadyInQueue := Absent; strong := Absent; title := Absent;
  description := Absent; swipeEnabled := Absent; queueMode := Absent
|}.

End Types.
Import Types.

(** An allocated [params] object: its address and its properties. *)
Record Object : Type := {
  addr : nat;
  fields : ShowNotificationParams
}.

(* ================================================================== *)
(** ** The animation driver and the effect log *)

(** [toValue] of an animation. *)
Inductive Target : Type :=
| hiddenComponentValue
| MAX_TRANSLATE_Y.

(** What [start] was given to run when the animation ends. *)
Inductive EndCallback : Type :=
| NoCallback                             (* [.start()] *)
| HideEnd (callback : option Callback)   (* [onHidden(); callback?.(result)] *)
| SwipeEnd (isSwipedOut : bool).         (* [if (isSwipedOut) onHidden()] *)

Record Animation : Type := {
  toValue : Target;
  anim_easing : option Easing;
  anim_duration : number;
  onEnd : EndCallback
}.

(** What the component does to the outside. *)
Inductive Effect : Type :=
| Invoke (f : Callback)
| AnimatedTimingStart (a : Animation).

(* ================================================================== *)
(** ** The component *)

Record NotifierRoot : Type := {
  props : ShowNotificationParams;
  state : StateInterface;
  isShown : bool;
  isHiding : bool;
  hideTimer : option number;
  currentParams : option Object;
  showParams : option ShowParams;
  callStack : list Object;
  (* the environment *)
  heap_next : nat;
  animations : list Animation;
  log : list Effect
}.

Definition set_state (s : StateInterface) (this : NotifierRoot) : NotifierRoot :=
  {| props := props this; state := s; isShown := isShown this;
     isHiding := isHiding this; hideTimer := hideTimer this;
     currentParams := currentParams this; showParams := showParams this;
     callStack := callStack this; heap_next := heap_next this;
     animations := animations this; log := log this |}.

Definition set_isShown (b : bool) (this : NotifierRoot) : NotifierRoot :=
  {| props := props this; state := state this; isShown := b;
     isHiding := isHiding this; hideTimer := hideTimer this;
     currentParams := currentParams this; showParams := showParams this;
     callStack := callStack this; heap_next := heap_next this;
     animations := animations this; log := log this |}.

Definition set_isHiding (b : bool) (this : NotifierRoot) : NotifierRoot :=
  {| props := props this; state := state this; isShown := isShown this;
     isHiding := b; hideTimer := hideTimer this;
     currentParams := currentParams this; showParams := showParams this;
     callStack := callStack this; heap_next := heap_next this;
     animations := animations this; log := log this |}.

Definition set_hideTimer (t : option number) (this : NotifierRoot) : NotifierRoot :=
  {| props := props this; state := state this; isShown := isShown this;
     isHiding := isHiding this; hideTimer := t;
     currentParams := currentParams this; showParams := showParams this;
     callStack := callStack this; heap_next := heap_next this;
     animations := animations this; log := log this |}.

Definition set_currentParams (p : option Object) (this : NotifierRoot) : NotifierRoot :=
  {| props := props this; state := state this; isShown := isShown this;
     isHiding := isHiding this; hideTimer := hideTimer this;
     currentParams := p; showParams := showParams this;
     callStack := callStack this; heap_next := heap_next this;
     animations := animations this; log := log this |}.

Definition set_showParams (p : option ShowParams) (this : NotifierRoot) : NotifierRoot :=
  {| props := props this; state := state this; isShown := isShown this;
     isHiding := isHiding this; hideTimer := hideTimer this;
     currentParams := currentParams this; showParams := p;
     callStack := callStack this; heap_next := heap_next this;
     animations := animations this; log := log this |}.

Definition set_callStack (q : list Object) (this : NotifierRoot) : NotifierRoot :=
  {| props := props this; state := state this; isShown := isShown this;
     isHiding := isHiding this; hideTimer := hideTimer this;
     currentParams := currentParams this; showParams := showParams this;
     callStack := q; heap_next := heap_next this;
     animations := animations this; log := log this |}.

Definition set_heap_next (n : nat) (this : NotifierRoot) : NotifierRoot :=
  {| props := props this; state := state this; isShown := isShown this;
     isHiding := isHiding this; hideTimer := hideTimer this;
     currentParams := currentParams this; showParams := showParams this;
     callStack := callStack this; heap_next := n;
     animations := animations this; log := log this |}.

Definition set_animations (l : list Animation) (this : NotifierRoot) : NotifierRoot :=
  {| props := props this; state := state this; isShown := isShown this;
     isHiding := isHiding this; hideTimer := hideTimer this;
     currentParams := currentParams this; showParams := showParams this;
     callStack := callStack this; heap_next := heap_next this;
     animations := l; log := log this |}.

Definition set_log (l : list Effect) (this : NotifierRoot) : NotifierRoot :=
  {| props := props this; state := state this; isShown := isShown this;
     isHiding := isHiding this; hideTimer := hideTimer this;
     currentParams := currentParams this; showParams := showParams this;
     callStack := callStack this; heap_next := heap_next this;
     animations := animations this; log := l |}.

(** [constructor(props)]. *)
Definition constructor (props0 : ShowNotificationParams) : NotifierRoot := {|
  props := props0;
  state := {| state_id := None; state_title := None; state_description := None;
              state_swipeEnabled := DEFAULT_SWIPE_ENABLED |};
  isShown := false;
  isHiding := false;
  hideTimer := None;
  currentParams := None;
  showParams := None;
  callStack := [];
  heap_next := 0;
  animations := [];
  log := []
|}.

(** [f?.()] for a callback [f] that may be [undefined]. *)
Definition call (f : option Callback) (this : NotifierRoot) : NotifierRoot :=
  match f with
  | Some g => set_log (log this ++ [Invoke g]) this
  | None => this
  end.

(** [this.showParams?.x]. *)
Definition showParams_get {A} (x : ShowParams -> prop A) (this : NotifierRoot)
  : option A :=
  match showParams this with
  | Some sp => get (x sp)
  | None => None
  end.

(** [Animated.timing(this.translateY, config).start(callback)]. *)
Definition Animated_timing_start (a : Animation) (this : NotifierRoot) : NotifierRoot :=
  set_animations (animations this ++ [a])
    (set_log (log this ++ [AnimatedTimingStart a]) this).

(** [clearTimeout(this.hideTimer)]. *)
Definition clearTimeout (this : NotifierRoot) : NotifierRoot :=
  set_hideTimer None this.

(** [componentWillUnmount]. *)
Definition componentWillUnmount (this : NotifierRoot) : NotifierRoot :=
  clearTimeout this.

(** [private setHideTimer()]. *)
Definition setHideTimer (this : NotifierRoot) : NotifierRoot :=
  let duration := nullish (showParams_get duration this) DEFAULT_DURATION in
  let this := clearTimeout this in
  if truthy_number duration && negb (isNaN duration)
  then set_hideTimer (Some duration) this
  else this.

(** [private onStartHiding()]. *)
Definition onStartHiding (this : NotifierRoot) : NotifierRoot :=
  let this := call (showParams_get Types.onStartHiding this) this in
  let this := set_isHiding true this in
  clearTimeout this.

(** The exit animation that [hideNotification] starts. *)
Definition exit_animation (callback : option Callback) (this : NotifierRoot)
  : Animation :=
  {| toValue := hiddenComponentValue;
     anim_easing := nullish_opt (showParams_get hideEasing this)
                                (showParams_get easing this);
     anim_duration :=
       nullish (nullish_opt (showParams_get hideAnimationDuration this)
                            (showParams_get animationDuration this))
               DEFAULT_ANIMATION_DURATION;
     onEnd := HideEnd callback |}.

(** [public hideNotification(callback?)]. *)
Definition hideNotification (callback : option Callback) (this : NotifierRoot)
  : NotifierRoot :=
  if negb (isShown this) || isHiding this then this
  else
    let this := Animated_timing_start (exit_animation callback this) this in
    onStartHiding this.

(** [public hideNotificationById(id, callback?)]. *)
Definition hideNotificationById (id0 : string) (callback : option Callback)
  (this : NotifierRoot) : NotifierRoot :=
  if isShown this && negb (isHiding this)
     && strict_eq_string (state_id (state this)) (Some id0)
  then hideNotification callback this
  else this.

(** [public clearNotificationById(id, hideDisplayedNotification = true)]. *)
Definition clearNotificationById (id0 : string)
  (hideDisplayedNotification : option bool) (this : NotifierRoot) : NotifierRoot :=
  let hideDisplayedNotification := nullish hideDisplayedNotification true in
  let this :=
    set_callStack
      (filter (fun params => negb (strict_eq_string (get (id (fields params))) (Some id0)))
              (callStack this)) this in
  if hideDisplayedNotification then hideNotificationById id0 None this else this.

(** [public clearQueue(hideDisplayedNotification?)]. *)
Definition clearQueue (hideDisplayedNotification : option bool)
  (this : NotifierRoot) : NotifierRoot :=
  let this := set_callStack [] this in
  if truthy_bool hideDisplayedNotification then hideNotification None this else this.

(** [private showCurrentLater(moveOnlyStrong)]. *)
Definition showCurrentLater (moveOnlyStrong : bool) (this : NotifierRoot)
  : NotifierRoot :=
  match currentParams this with
  | Some current =>
      if negb (isShown this) || isHiding this then this
      else if negb moveOnlyStrong
              || match get (strong (fields current)) with
                 | Some true => true
                 | _ => false
                 end
      then set_callStack (current :: callStack this) this
      else this
  | None => this
  end.

(** The first [if] of [showNotification]: the request is already shown. *)
Definition skipped_as_shown (params : ShowNotificationParams) (this : NotifierRoot)
  : bool :=
  truthy_bool (get (skipAlreadyShown params))
  && isShown this
  && negb (isHiding this)
  && truthy_string (get (id params))
  && strict_eq_string (state_id (state this)) (get (id params)).

(** The second [if] of [showNotification]: the request is already queued. *)
Definition skipped_as_queued (params : ShowNotificationParams) (this : NotifierRoot)
  : bool :=
  truthy_bool (get (skipAlreadyInQueue params))
  && truthy_string (get (id params))
  && match find (fun item => strict_eq_string (get (id (fields item))) (get (id params)))
                (callStack this) with
     | Some _ => true
     | None => false
     end.

(** The [switch (params.queueMode)] of [showNotification]. *)
Definition enqueue (params : Object) (this : NotifierRoot) : NotifierRoot :=
  let mode := get (queueMode (fields params)) in
  if case_label mode "standby" then
    set_callStack (callStack this ++ [params]) this
  else if case_label mode "next" then
    set_callStack (params :: callStack this) this
  else if case_label mode "immediate" then
    let this := set_callStack (params :: callStack this) this in
    hideNotification None this
  else if case_label mode "immediateMove" then
    let this := showCurrentLater false this in
    let this := set_callStack (params :: callStack this) this in
    hideNotification None this
  else if case_label mode "immediateMoveOnlyStrong" then
    let this := showCurrentLater true this in
    let this := set_callStack (params :: callStack this) this in
    hideNotification None this
  else
    let this := set_callStack [params] this in
    hideNotification None this.

(** The enter animation that [showNotification] starts. *)
Definition enter_animation (this : NotifierRoot) : Animation :=
  {| toValue := MAX_TRANSLATE_Y;
     anim_easing := nullish_opt (showParams_get showEasing this)
                                (showParams_get easing this);
     anim_duration :=
       nullish (nullish_opt (showParams_get showAnimationDuration this)
                            (showParams_get animationDuration this))
               DEFAULT_ANIMATION_DURATION;
     onEnd := NoCallback |}.

(** The rest of [showNotification], reached when nothing is shown.
    [restParams] keeps more properties than [ShowParams] declares; only those
    of [ShowParams] are ever read through [showParams]. *)
Definition display (params : Object) (this : NotifierRoot) : NotifierRoot :=
  let p := fields params in
  let this :=
    set_state {| state_id := get (id p);
                 state_title := get (title p);
                 state_description := get (description p);
                 state_swipeEnabled := nullish (get (swipeEnabled p)) DEFAULT_SWIPE_ENABLED |}
              this in
  let this := set_showParams (Some (base p)) this in
  let this := set_currentParams (Some params) this in
  let this := set_isShown true this in
  let this := setHideTimer this in
  Animated_timing_start (enter_animation this) this.

(** [const params = {...this.props, ...functionParams}]: the merged
    properties, and the new object at the next free address. *)
Definition merged (functionParams : ShowNotificationParams) (this : NotifierRoot)
  : Object :=
  {| addr := heap_next this;
     fields := spread_params (props this) functionParams |}.

(** [public showNotification(functionParams)]. *)
Definition showNotification (functionParams : ShowNotificationParams)
  (this : NotifierRoot) : NotifierRoot :=
  let params := merged functionParams this in
  let this := set_heap_next (S (heap_next this)) this in
  if skipped_as_shown (fields params) this then this
  else if skipped_as_queued (fields params) this then this
  else if isShown this then enqueue params this
  else display params this.

(** [private onHidden()]. *)
Definition onHidden (this : NotifierRoot) : NotifierRoot :=
  let this := call (showParams_get Types.onHidden this) this in
  let this := set_isShown false this in
  let this := set_isHiding false this in
  let this := set_showParams None this in
  let this := set_currentParams None this in
  match callStack this with
  | nextNotification :: rest =>
      let this := set_callStack rest this in
      showNotification (fields nextNotification) this
  | [] =>
      set_state {| state_id := None;
                   state_title := state_title (state this);
                   state_description := state_description (state this);
                   state_swipeEnabled := state_swipeEnabled (state this) |} this
  end.

(** [State] of react-native-gesture-handler. *)
Inductive State : Type :=
| UNDETERMINED | FAILED | BEGAN | CANCELLED | ACTIVE | END_.

Definition State_eqb (a b : State) : bool :=
  match a, b with
  | UNDETERMINED, UNDETERMINED | FAILED, FAILED | BEGAN, BEGAN
  | CANCELLED, CANCELLED | ACTIVE, ACTIVE | END_, END_ => true
  | _, _ => false
  end.

(** The [nativeEvent] of a [PanGestureHandlerStateChangeEvent]. *)
Record NativeEvent : Type := {
  ev_state : State;
  oldState : State;
  translationY : number
}.

(** [const isSwipedOut = nativeEvent.translationY < swipePixelsToClose]
    with [swipePixelsToClose = -(showParams?.swipePixelsToClose ?? SWIPE_PIXELS_TO_CLOSE)]. *)
Definition isSwipedOut (nativeEvent : NativeEvent) (this : NotifierRoot) : bool :=
  let swipePixelsToClose :=
    neg (nullish (showParams_get swipePixelsToClose this) SWIPE_PIXELS_TO_CLOSE) in
  lt (translationY nativeEvent) swipePixelsToClose.

(** The animation that [onHandlerStateChange] starts when a drag ends. *)
Definition swipe_animation (swiped : bool) (this : NotifierRoot) : Animation :=
  {| toValue := if swiped then hiddenComponentValue else MAX_TRANSLATE_Y;
     anim_easing := showParams_get swipeEasing this;
     anim_duration := nullish (showParams_get swipeAnimationDuration this)
                              SWIPE_ANIMATION_DURATION;
     onEnd := SwipeEnd swiped |}.

(** [private onHandlerStateChange({ nativeEvent })]. *)
Definition onHandlerStateChange (nativeEvent : NativeEvent) (this : NotifierRoot)
  : NotifierRoot :=
  let this :=
    if State_eqb (ev_state nativeEvent) ACTIVE then clearTimeout this else this in
  if negb (State_eqb (oldState nativeEvent) ACTIVE) then this
  else
    let this := setHideTimer this in
    let swiped := isSwipedOut nativeEvent this in
    let this := Animated_timing_start (swipe_animation swiped this) this in
    if swiped then onStartHiding this else this.

(** [private onPress()]. *)
Definition onPress (this : NotifierRoot) : NotifierRoot :=
  let this := call (showParams_get Types.onPress this) this in
  match showParams_get hideOnPress this with
  | Some false => this
  | _ => hideNotification None this
  end.

(* ================================================================== *)
(** ** The environment *)

(** The completion callback given to [start]. *)
Definition run_EndCallback (c : EndCallback) (this : NotifierRoot) : NotifierRoot :=
  match c with
  | NoCallback => this
  | HideEnd callback => call callback (onHidden this)
  | SwipeEnd swiped => if swiped then onHidden this else this
  end.

Fixpoint remove_nth {A} (n : nat) (l : list A) : list A :=
  match n, l with
  | _, [] => []
  | O, _ :: l' => l'
  | S n', x :: l' => x :: remove_nth n' l'
  end.

(** What can happen to the component. *)
Inductive Event : Type :=
| ShowNotification (functionParams : ShowNotificationParams)
| HideNotification (callback : option Callback)
| HideNotificationById (id0 : string) (callback : option Callback)
| ClearQueue (hideDisplayedNotification : option bool)
| ClearNotificationById (id0 : string) (hideDisplayedNotification : option bool)
| TimerFire                       (* the timeout held in [hideTimer] expires *)
| AnimationEnd (k : nat)          (* the [k]-th running animation ends *)
| HandlerStateChange (nativeEvent : NativeEvent)
| Press
| Unmount.

Definition step (e : Event) (this : NotifierRoot) : NotifierRoot :=
  match e with
  | ShowNotification functionParams => showNotification functionParams this
  | HideNotification callback => hideNotification callback this
  | HideNotificationById id0 callback => hideNotificationById id0 callback this
  | ClearQueue h => clearQueue h this
  | ClearNotificationById id0 h => clearNotificationById id0 h this
  | TimerFire =>
      match hideTimer this with
      | Some _ => hideNotification None (set_hideTimer None this)
      | None => this
      end
  | AnimationEnd k =>
      match nth_error (animations this) k with
      | Some a =>
          run_EndCallback (onEnd a)
            (set_animations (remove_nth k (animations this)) this)
      | None => this
      end
  | HandlerStateChange nativeEvent => onHandlerStateChange nativeEvent this
  | Press => onPress this
  | Unmount => componentWillUnmount this
  end.

(** The events of a list, first to last. *)
Fixpoint run (es : list Event) (this : NotifierRoot) : NotifierRoot :=
  match es with
  | [] => this
  | e :: es' => run es' (step e this)
  end.

(** The states the component can be in. *)
Definition reachable (this : NotifierRoot) : Prop :=
  exists props0 es, this = run es (constructor props0).

(* ================================================================== *)
(** ** Notions used in the statements *)

(** The queue holds the object [o] (the object at its address). *)
Definition queued (o : Object) (this : NotifierRoot) : Prop :=
  In (addr o) (map addr (callStack this)).

(** The effects of [f?.()]. *)
Definition invoked (f : option Callback) : list Effect :=
  match f with Some g => [Invoke g] | None => [] end.

(** A [queueMode] that no [case] label of [showNotification] matches:
    ['reset'], any other string, or [undefined]. *)
Definition default_mode (m : option string) : Prop :=
  m <> Some "standby" /\ m <> Some "next" /\ m <> Some "immediate"
  /\ m <> Some "immediateMove" /\ m <> Some "immediateMoveOnlyStrong".

(** Heap and display consistency of the component's fields. *)
Record consistent (this : NotifierRoot) : Prop := {
  queue_allocated :
    forall o, In o (callStack this) -> addr o < heap_next this;
  current_allocated :
    forall cur, currentParams this = Some cur -> addr cur < heap_next this;
  current_queued_hiding :
    forall cur, currentParams this = Some cur -> queued cur this ->
                isHiding this = true;
  shown_current :
    isShown this = true ->
    exists cur, currentParams this = Some cur
                /\ state_id (state this) = get (id (fields cur))
                /\ showParams this = Some (base (fields cur))
}.

(** The object at address [a] is out of the queue, and if it is still the
    displayed one, it is on its way out. *)
Record discarded (a : nat) (this : NotifierRoot) : Prop := {
  discarded_allocated : a < heap_next this;
  discarded_not_queued : ~ In a (map addr (callStack this));
  discarded_hiding :
    forall cur, currentParams this = Some cur -> addr cur = a ->
                isHiding this = true
}.

(** Between [this] and [this'] the hide path of [hideNotification] started:
    one exit animation whose end runs [onHidden], the [onStartHiding]
    callback, the hiding flag, the timer cleared. *)
Definition hide_started (callback : option Callback) (this this' : NotifierRoot)
  : Prop :=
  animations this' = animations this ++ [exit_animation callback this]
  /\ log this' = log this ++ [AnimatedTimingStart (exit_animation callback this)]
                          ++ invoked (showParams_get Types.onStartHiding this)
  /\ isHiding this' = true
  /\ hideTimer this' = None.



(** The queue never holds the displayed request. *)
Definition queue_never_holds_displayed : Prop :=
  forall this cur,
    reachable this -> currentParams this = Some cur -> ~ queued cur this.

(** ['immediateMove'] puts the displayed request back whenever one is
    displayed, hiding or not. *)
Definition immediateMove_always_requeues : Prop :=
  forall this A B,
    reachable this ->
    isShown this = true ->
    currentParams this = Some A ->
    skipped_as_shown (fields (merged B this)) this = false ->
    skipped_as_queued (fields (merged B this)) this = false ->
    get (queueMode (fields (merged B this))) = Some "immediateMove" ->
    exists rest,
      callStack (showNotification B this) = merged B this :: A :: rest.

(** [skipAlreadyShown] drops every request whose [id] is the displayed
    one's. *)
Definition skipAlreadyShown_drops_every_equal_id : Prop :=
  forall this A R i,
    reachable this ->
    isShown this = true ->
    isHiding this = false ->
    currentParams this = Some A ->
    get (id (fields A)) = Some i ->
    get (skipAlreadyShown (fields (merged R this))) = Some true ->
    get (id (fields (merged R this))) = Some i ->
    showNotification R this = set_heap_next (S (heap_next this)) this.

(* ================================================================== *)
(** ** Requests and events used in the examples *)

(** [{ id: i, queueMode: mode }]. *)
Definition request (i : string) (mode : prop string) : ShowNotificationParams :=
  {| base := empty_ShowParams; id := Val i; skipAlreadyShown := Absent;
     skipAlreadyInQueue := Absent; strong := Absent; title := Absent;
     description := Absent; swipeEnabled := Absent; queueMode := mode |}.

(** [{ ...p, strong: true }]. *)
Definition with_strong (p : ShowNotificationParams) : ShowNotificationParams :=
  {| base := base p; id := id p; skipAlreadyShown := skipAlreadyShown p;
     skipAlreadyInQueue := skipAlreadyInQueue p; strong := Val true;
     title := title p; description := description p;
     swipeEnabled := swipeEnabled p; queueMode := queueMode p |}.

(** [{ ...p, skipAlreadyShown: true }]. *)
Definition with_skipAlreadyShown (p : ShowNotificationParams) : ShowNotificationParams :=
  {| base := base p; id := id p; skipAlreadyShown := Val true;
     skipAlreadyInQueue := skipAlreadyInQueue p; strong := strong p;
     title := title p; description := description p;
     swipeEnabled := swipeEnabled p; queueMode := queueMode p |}.

(** [{ ...p, onStartHiding: f, onHidden: g }]. *)
Definition with_callbacks (f g : Callback) (p : ShowNotificationParams)
  : ShowNotificationParams :=
  let b := base p in
  {| base :=
       {| animationDuration := animationDuration b;
          showAnimationDuration := showAnimationDuration b;
          hideAnimationDuration := hideAnimationDuration b;
          easing := easing b; showEasing := showEasing b;
          hideEasing := hideEasing b;
          Types.onStartHiding := Val f; Types.onHidden := Val g;
          Types.onPress := Types.onPress b;
          hideOnPress := hideOnPress b;
          swipePixelsToClose := swipePixelsToClose b;
          swipeEasing := swipeEasing b;
          swipeAnimationDuration := swipeAnimationDuration b;
          duration := duration b |};
     id := id p; skipAlreadyShown := skipAlreadyShown p;
     skipAlreadyInQueue := skipAlreadyInQueue p; strong := strong p;
     title := title p; description := description p;
     swipeEnabled := swipeEnabled p; queueMode := queueMode p |}.


(** The end of a drag of [d] pixels. *)
Definition drag_end (d : Q) : NativeEvent :=
  {| ev_state := END_; oldState := ACTIVE; translationY := Num d |}.

(** [A] is displayed from the idle component; [X] and [Y] wait. *)
Definition A_shown : NotifierRoot :=
  run [ShowNotification (request "a" Absent)] (constructor empty_params).

Definition A_shown_X_queued : NotifierRoot :=
  run [ShowNotification (request "x" (Val "standby"))] A_shown.

Definition A_shown_XY_queued : NotifierRoot :=
  run [ShowNotification (request "y" (Val "standby"))] A_shown_X_queued.

(** [A] is displayed and its exit animation runs. *)
Definition A_hiding : NotifierRoot :=
  run [HideNotification None] A_shown.

(** The object that [A_shown] displays. *)
Definition object_A : Object :=
  {| addr := 0; fields := request "a" Absent |}.

(** A request with the empty string as [id] is displayed. *)
Definition empty_id_shown : NotifierRoot :=
  run [ShowNotification (request EmptyString Absent)] (constructor empty_params).

Definition object_empty_id : Object :=
  {| addr := 0; fields := request EmptyString Absent |}.

(** A strong request is displayed. *)
Definition strong_shown : NotifierRoot :=
  run [ShowNotification (with_strong (request "a" Absent))] (constructor empty_params).

Definition object_strong : Object :=
  {| addr := 0; fields := with_strong (request "a" Absent) |}.

(** A request with callbacks is displayed; then [hideNotification] is
    called. *)
Definition callbacks_shown : NotifierRoot :=
  run [ShowNotification (with_callbacks "startHiding" "hidden" (request "a" Absent))]
      (constructor empty_params).

Definition callbacks_hiding : NotifierRoot :=
  run [HideNotification None] callbacks_shown.


(* ================================================================== *)
(** ** Further invariants of the fields *)

(** Nothing dangles when nothing is shown, no object is queued twice, and
    every stored object already carries the defaults of [props]. *)
Record tidy (this : NotifierRoot) : Prop := {
  idle_no_current :
    isShown this = false -> currentParams this = None /\ showParams this = None;
  queue_distinct : NoDup (map addr (callStack this));
  queue_merged :
    forall o, In o (callStack this) ->
              spread_params (props this) (fields o) = fields o;
  current_merged :
    forall cur, currentParams this = Some cur ->
                spread_params (props this) (fields cur) = fields cur
}.

(** Some queued request has the [id] [i]. *)
Definition id_queued (i : string) (this : NotifierRoot) : Prop :=
  exists o, In o (callStack this) /\ get (id (fields o)) = Some i.

(** The component with nothing shown: what [onHidden] leaves when the queue
    is empty. *)
Definition idle (this : NotifierRoot) : Prop :=
  isShown this = false /\ isHiding this = false
  /\ currentParams this = None /\ showParams this = None
  /\ callStack this = [] /\ state_id (state this) = None.



(** [{ ...p, skipAlreadyInQueue: true }]. *)
Definition with_skipAlreadyInQueue (p : ShowNotificationParams)
  : ShowNotificationParams :=
  {| base := base p; id := id p; skipAlreadyShown := skipAlreadyShown p;
     skipAlreadyInQueue := Val true; strong := strong p;
     title := title p; description := description p;
     swipeEnabled := swipeEnabled p; queueMode := queueMode p |}.

(* ================================================================== *)
(** ** The component on a driver that stops the running animation *)

(** [{ ...this, props }]: React gives the component new props. *)
Definition set_props (p : ShowNotificationParams) (this : NotifierRoot) : NotifierRoot :=
  {| props := p; state := state this; isShown := isShown this;
     isHiding := isHiding this; hideTimer := hideTimer this;
     currentParams := currentParams this; showParams := showParams this;
     callStack := callStack this; heap_next := heap_next this;
     animations := animations this; log := log this |}.

(** React Native's [Animated.Value] runs one animation at a time.  Starting
    an animation on [translateY], setting its value and detaching it at the
    unmount all stop the animation that runs, and stopping an animation runs
    its end callback at once.  In this module [animations] holds the running
    animation, if any, and the methods that touch [translateY] are embedded
    again with that behaviour; the methods that do not are the ones above.

    The end callback of a stopped animation may itself touch [translateY]
    ([onHidden] sets the value, and shows the next request).  The methods
    therefore take the stopping function as the argument [stop], and
    [stopAnimation] closes the loop by recursion on a fuel.  An enter
    animation started inside such an end callback is replaced, as the
    animation that [translateY] holds, by the animation whose start stopped
    the first one; it has no end callback. *)
Module Stopping.

(** [Animated.timing(this.translateY, a).start(callback)]. *)
Definition timing_start_with (stop : NotifierRoot -> NotifierRoot) (a : Animation)
  (this : NotifierRoot) : NotifierRoot :=
  let this := stop this in
  set_animations [a] (set_log (log this ++ [AnimatedTimingStart a]) this).

(** [public hideNotification(callback?)]. *)
Definition hideNotification_with (stop : NotifierRoot -> NotifierRoot)
  (callback : option Callback) (this : NotifierRoot) : NotifierRoot :=
  if negb (isShown this) || isHiding this then this
  else
    let this := timing_start_with stop (exit_animation callback this) this in
    onStartHiding this.

(** The [switch (params.queueMode)] of [showNotification]. *)
Definition enqueue_with (stop : NotifierRoot -> NotifierRoot) (params : Object)
  (this : NotifierRoot) : NotifierRoot :=
  let mode := get (queueMode (fields params)) in
  if case_label mode "standby" then
    set_callStack (callStack this ++ [params]) this
  else if case_label mode "next" then
    set_callStack (params :: callStack this) this
  else if case_label mode "immediate" then
    let this := set_callStack (params :: callStack this) this in
    hideNotification_with stop None this
  else if case_label mode "immediateMove" then
    let this := showCurrentLater false this in
    let this := set_callStack (params :: callStack this) this in
    hideNotification_with stop None this
  else if case_label mode "immediateMoveOnlyStrong" then
    let this := showCurrentLater true this in
    let this := set_callStack (params :: callStack this) this in
    hideNotification_with stop None this
  else
    let this := set_callStack [params] this in
    hideNotification_with stop None this.

(** The rest of [showNotification], reached when nothing is shown; the
    configuration of the enter animation is read after
    [this.translateY.setValue(-DEFAULT_COMPONENT_HEIGHT)]. *)
Definition display_with (stop : NotifierRoot -> NotifierRoot) (params : Object)
  (this : NotifierRoot) : NotifierRoot :=
  let p := fields params in
  let this :=
    set_state {| state_id := get (id p);
                 state_title := get (title p);
                 state_description := get (description p);
                 state_swipeEnabled := nullish (get (swipeEnabled p)) DEFAULT_SWIPE_ENABLED |}
              this in
  let this := set_showParams (Some (base p)) this in
  let this := set_currentParams (Some params) this in
  let this := set_isShown true this in
  let this := setHideTimer this in
  let this := stop this in
  timing_start_with stop (enter_animation this) this.

(** [public showNotification(functionParams)]. *)
Definition showNotification_with (stop : NotifierRoot -> NotifierRoot)
  (functionParams : ShowNotificationParams) (this : NotifierRoot) : NotifierRoot :=
  let params := merged functionParams this in
  let this := set_heap_next (S (heap_next this)) this in
  if skipped_as_shown (fields params) this then this
  else if skipped_as_queued (fields params) this then this
  else if isShown this then enqueue_with stop params this
  else display_with stop params this.

(** [private onHidden()], with [this.translateY.setValue(MIN_TRANSLATE_Y)]. *)
Definition onHidden_with (stop : NotifierRoot -> NotifierRoot) (this : NotifierRoot)
  : NotifierRoot :=
  let this := call (showParams_get Types.onHidden this) this in
  let this := set_isShown false this in
  let this := set_isHiding false this in
  let this := set_showParams None this in
  let this := set_currentParams None this in
  let this := stop this in
  match callStack this with
  | nextNotification :: rest =>
      let this := set_callStack rest this in
      showNotification_with stop (fields nextNotification) this
  | [] =>
      set_state {| state_id := None;
                   state_title := state_title (state this);
                   state_description := state_description (state this);
                   state_swipeEnabled := state_swipeEnabled (state this) |} this
  end.

(** The completion callback given to [start]. *)
Definition run_EndCallback_with (stop : NotifierRoot -> NotifierRoot)
  (c : EndCallback) (this : NotifierRoot) : NotifierRoot :=
  match c with
  | NoCallback => this
  | HideEnd callback => call callback (onHidden_with stop this)
  | SwipeEnd swiped => if swiped then onHidden_with stop this else this
  end.

(** Stopping the running animation: it is no longer running, then its end
    callback runs.  With no fuel left the callback is not run. *)
Fixpoint stopAnimation (fuel : nat) (this : NotifierRoot) : NotifierRoot :=
  match animations this with
  | [] => this
  | a :: _ =>
      let this := set_animations [] this in
      match fuel with
      | O => this
      | S fuel' => run_EndCallback_with (stopAnimation fuel') (onEnd a) this
      end
  end.

(** One unit of fuel is enough (see [stopAnimation_fuel]): inside an end
    callback nothing runs any more. *)
Definition stop : NotifierRoot -> NotifierRoot := stopAnimation 1.

Definition hideNotification := hideNotification_with stop.
Definition showNotification := showNotification_with stop.
Definition onHidden := onHidden_with stop.

(** [public hideNotificationById(id, callback?)]. *)
Definition hideNotificationById (id0 : string) (callback : option Callback)
  (this : NotifierRoot) : NotifierRoot :=
  if isShown this && negb (isHiding this)
     && strict_eq_string (state_id (state this)) (Some id0)
  then hideNotification callback this
  else this.

(** [public clearNotificationById(id, hideDisplayedNotification = true)]. *)
Definition clearNotificationById (id0 : string)
  (hideDisplayedNotification : option bool) (this : NotifierRoot) : NotifierRoot :=
  let hideDisplayedNotification := nullish hideDisplayedNotification true in
  let this :=
    set_callStack
      (filter (fun params => negb (strict_eq_string (get (id (fields params))) (Some id0)))
              (callStack this)) this in
  if hideDisplayedNotification then hideNotificationById id0 None this else this.

(** [public clearQueue(hideDisplayedNotification?)]. *)
Definition clearQueue (hideDisplayedNotification : option bool)
  (this : NotifierRoot) : NotifierRoot :=
  let this := set_callStack [] this in
  if truthy_bool hideDisplayedNotification then hideNotification None this else this.

(** [private onHandlerStateChange({ nativeEvent })]. *)
Definition onHandlerStateChange (nativeEvent : NativeEvent) (this : NotifierRoot)
  : NotifierRoot :=
  let this :=
    if State_eqb (ev_state nativeEvent) ACTIVE then clearTimeout this else this in
  if negb (State_eqb (oldState nativeEvent) ACTIVE) then this
  else
    let this := setHideTimer this in
    let swiped := isSwipedOut nativeEvent this in
    let this := timing_start_with stop (swipe_animation swiped this) this in
    if swiped then onStartHiding this else this.

(** [private onPress()]. *)
Definition onPress (this : NotifierRoot) : NotifierRoot :=
  let this := call (showParams_get Types.onPress this) this in
  match showParams_get hideOnPress this with
  | Some false => this
  | _ => hideNotification None this
  end.

(** What can happen to the component. *)
Inductive Event : Type :=
| ShowNotification (functionParams : ShowNotificationParams)
| HideNotification (callback : option Callback)
| HideNotificationById (id0 : string) (callback : option Callback)
| ClearQueue (hideDisplayedNotification : option bool)
| ClearNotificationById (id0 : string) (hideDisplayedNotification : option bool)
| TimerFire                       (* the timeout held in [hideTimer] expires *)
| AnimationEnd                    (* the running animation ends *)
| HandlerStateChange (nativeEvent : NativeEvent)
| Press
| Rerender (props0 : ShowNotificationParams)   (* the parent passes new props *)
| Unmount.

Definition step (e : Event) (this : NotifierRoot) : NotifierRoot :=
  match e with
  | ShowNotification functionParams => showNotification functionParams this
  | HideNotification callback => hideNotification callback this
  | HideNotificationById id0 callback => hideNotificationById id0 callback this
  | ClearQueue h => clearQueue h this
  | ClearNotificationById id0 h => clearNotificationById id0 h this
  | TimerFire =>
      match hideTimer this with
      | Some _ => hideNotification None (set_hideTimer None this)
      | None => this
      end
  | AnimationEnd =>
      match animations this with
      | a :: _ => run_EndCallback_with stop (onEnd a) (set_animations [] this)
      | [] => this
      end
  | HandlerStateChange nativeEvent => onHandlerStateChange nativeEvent this
  | Press => onPress this
  | Rerender props0 => set_props props0 this
  | Unmount => stop (componentWillUnmount this)
  end.

(** The events of a list, first to last. *)
Fixpoint run (es : list Event) (this : NotifierRoot) : NotifierRoot :=
  match es with
  | [] => this
  | e :: es' => run es' (step e this)
  end.

(** The states the component can be in. *)
Definition reachable (this : NotifierRoot) : Prop :=
  exists props0 es, this = run es (constructor props0).

End Stopping.

(* ================================================================== *)
(** ** Notions used in the statements about the stopping driver *)

(** What runs, if anything, has no end callback that hides: it is an enter
    animation or the spring-back after a drag. *)
Definition harmless (this : NotifierRoot) : Prop :=
  forall a, In a (animations this) ->
            onEnd a = NoCallback \/ onEnd a = SwipeEnd false.

(** [isShown] agrees with [currentParams] and [showParams]. *)
Definition display_agrees (this : NotifierRoot) : Prop :=
  (isShown this = false -> currentParams this = None /\ showParams this = None)
  /\ (isShown this = true ->
        exists cur, currentParams this = Some cur
                    /\ showParams this = Some (base (fields cur))).

(** [A] with callbacks is displayed, [B] with callbacks waits, and
    [hideNotification] has started the exit animation of [A]. *)
Definition request_A : ShowNotificationParams :=
  with_callbacks "startHidingA" "hiddenA" (request "a" Absent).

Definition request_B : ShowNotificationParams :=
  with_callbacks "startHidingB" "hiddenB" (request "b" (Val "standby")).

Definition A_hiding_B_queued : NotifierRoot :=
  Stopping.run [Stopping.ShowNotification request_A;
                Stopping.ShowNotification request_B;
                Stopping.HideNotification None]
               (constructor empty_params).

(** The user callbacks that an effect log records, in order. *)
Fixpoint calls (l : list Effect) : list Callback :=
  match l with
  | [] => []
  | Invoke f :: l' => f :: calls l'
  | AnimatedTimingStart _ :: l' => calls l'
  end.

(** The end callbacks of the animations that an effect log records as
    started, in order. *)
Fixpoint started (l : list Effect) : list EndCallback :=
  match l with
  | [] => []
  | Invoke _ :: l' => started l'
  | AnimatedTimingStart a :: l' => onEnd a :: started l'
  end.

(* ================================================================== *)
(** ** Invariants *)

Lemma call_log f this : call f this = set_log (log this ++ invoked f) this.
Proof.
  destruct f; cbn; [reflexivity|]. rewrite app_nil_r. destruct this; reflexivity.
Qed.

Ltac split_ifs :=
  repeat match goal with
         | |- context [if ?b then _ else _] => destruct b eqn:?
         | |- context [match ?x with Some _ => _ | None => _ end] => destruct x eqn:?
         end.

Lemma consistent_hideNotification cb this :
  consistent this -> consistent (hideNotification cb this).
Proof.
  intros [H1 H2 H3 H4]. unfold hideNotification.
  destruct (negb (isShown this) || isHiding this) eqn:G; [constructor; assumption|].
  unfold onStartHiding, Animated_timing_start, clearTimeout, call, showParams_get.
  destruct this; cbn in *.
  split_ifs; constructor; cbn in *; auto.
Qed.

Lemma consistent_setHideTimer this :
  consistent this -> consistent (setHideTimer this).
Proof.
  intros [H1 H2 H3 H4]. unfold setHideTimer, clearTimeout.
  destruct (_ && _); constructor; assumption.
Qed.

Lemma consistent_onStartHiding this :
  consistent this -> consistent (onStartHiding this).
Proof.
  intros [H1 H2 H3 H4]. unfold onStartHiding. rewrite call_log.
  constructor; cbn; auto.
Qed.

Lemma consistent_timing_start a this :
  consistent this -> consistent (Animated_timing_start a this).
Proof. intros [H1 H2 H3 H4]. constructor; assumption. Qed.

Lemma consistent_call f this : consistent this -> consistent (call f this).
Proof. intros [H1 H2 H3 H4]. rewrite call_log. constructor; assumption. Qed.

Lemma hideNotification_shown cb this :
  isShown this = true -> isHiding (hideNotification cb this) = true.
Proof.
  intros S. unfold hideNotification. rewrite S. cbn.
  destruct (isHiding this) eqn:E; [exact E|]. reflexivity.
Qed.

Lemma hideNotification_core cb this :
  callStack (hideNotification cb this) = callStack this
  /\ heap_next (hideNotification cb this) = heap_next this
  /\ currentParams (hideNotification cb this) = currentParams this
  /\ isShown (hideNotification cb this) = isShown this
  /\ state (hideNotification cb this) = state this
  /\ showParams (hideNotification cb this) = showParams this
  /\ props (hideNotification cb this) = props this.
Proof.
  unfold hideNotification. destruct (_ || _); [tauto|].
  unfold onStartHiding. rewrite call_log. cbn. tauto.
Qed.


Lemma showCurrentLater_frame b q this :
  set_callStack q (showCurrentLater b this) = set_callStack q this.
Proof.
  unfold showCurrentLater. destruct (currentParams this); [|reflexivity].
  destruct (negb (isShown this) || isHiding this); [reflexivity|].
  destruct (negb b || _); reflexivity.
Qed.

Lemma showCurrentLater_callStack b this :
  callStack (showCurrentLater b this) = callStack this
  \/ exists cur, currentParams this = Some cur /\ isHiding this = false
                 /\ callStack (showCurrentLater b this) = cur :: callStack this.
Proof.
  unfold showCurrentLater. destruct (currentParams this) as [cur|]; [|now left].
  destruct (isHiding this); [rewrite orb_true_r; now left|].
  destruct (negb (isShown this) || false); [now left|].
  destruct (negb b || _); [right; exists cur; auto|now left].
Qed.

Lemma consistent_hide_queue q this :
  consistent this -> isShown this = true ->
  (forall o, In o q -> addr o < heap_next this) ->
  consistent (hideNotification None (set_callStack q this)).
Proof.
  intros [H1 H2 H3 H4] S Hq.
  pose proof (hideNotification_core None (set_callStack q this))
    as (E1 & E2 & E3 & E4 & E5 & E6 & _).
  pose proof (hideNotification_shown None (set_callStack q this) S) as E7.
  constructor; rewrite ?E1, ?E2, ?E3, ?E4, ?E5, ?E6; cbn; auto.
Qed.

Lemma consistent_enqueue params this :
  consistent this -> isShown this = true ->
  addr params < heap_next this ->
  (forall cur, currentParams this = Some cur -> addr cur <> addr params) ->
  consistent (enqueue params this).
Proof.
  intros C S F Q. pose proof C as [H1 H2 H3 H4].
  unfold enqueue.
  repeat match goal with
         | |- context [if case_label ?m ?s then _ else _] =>
             destruct (case_label m s)
         end;
    rewrite ?showCurrentLater_frame;
    try (apply consistent_hide_queue; [assumption|assumption|]).
  - constructor; cbn; auto.
    + intros o Ho. apply in_app_or in Ho. destruct Ho as [Ho|[<-|[]]]; auto.
    + intros c Hc Hq. unfold queued in *; cbn in *. rewrite map_app in Hq.
      apply in_app_or in Hq. destruct Hq as [Hq|[Hq|[]]]; [eauto|].
      symmetry in Hq. apply Q in Hq; tauto.
  - constructor; cbn; auto.
    + intros o [<-|Ho]; auto.
    + intros c Hc [Hq|Hq]; [symmetry in Hq; apply Q in Hq; tauto|eauto].
  - intros o [<-|Ho]; auto.
  - intros o [<-|Ho]; auto.
    destruct (showCurrentLater_callStack false this) as [E|(cur & Hc & _ & E)];
      rewrite E in Ho; [auto|]. destruct Ho as [<-|Ho]; auto.
  - intros o [<-|Ho]; auto.
    destruct (showCurrentLater_callStack true this) as [E|(cur & Hc & _ & E)];
      rewrite E in Ho; [auto|]. destruct Ho as [<-|Ho]; auto.
  - intros o [<-|[]]; auto.
Qed.

Lemma consistent_display params this :
  consistent this -> isShown this = false ->
  addr params < heap_next this ->
  ~ In (addr params) (map addr (callStack this)) ->
  consistent (display params this).
Proof.
  intros [H1 H2 H3 H4] S F Q. unfold display.
  apply consistent_timing_start, consistent_setHideTimer.
  constructor; cbn; auto.
  - intros cur [= <-]. assumption.
  - intros cur [= <-] Hq. contradiction.
  - intros _. exists params. auto.
Qed.

Lemma consistent_alloc this :
  consistent this -> consistent (set_heap_next (S (heap_next this)) this).
Proof.
  intros [H1 H2 H3 H4]. constructor; cbn; auto.
  - intros o Ho. apply H1 in Ho. lia.
  - intros cur Hc. apply H2 in Hc. lia.
Qed.

Lemma fresh_not_queued this :
  consistent this -> ~ In (heap_next this) (map addr (callStack this)).
Proof.
  intros [H1 _ _ _] Hin. apply in_map_iff in Hin. destruct Hin as (o & E & Ho).
  apply H1 in Ho. lia.
Qed.

Lemma consistent_showNotification functionParams this :
  consistent this -> consistent (showNotification functionParams this).
Proof.
  intros C. unfold showNotification.
  pose proof (consistent_alloc this C) as C'.
  destruct (skipped_as_shown _ _); [assumption|].
  destruct (skipped_as_queued _ _); [assumption|].
  cbn [isShown set_heap_next]. destruct (isShown this) eqn:S.
  - apply consistent_enqueue; cbn; auto.
    intros cur Hc. destruct C as [_ H2 _ _]. apply H2 in Hc. lia.
  - apply consistent_display; cbn; auto. apply fresh_not_queued, C.
Qed.

Lemma consistent_onHidden this :
  consistent this -> consistent (onHidden this).
Proof.
  intros C. unfold onHidden. apply consistent_call with (f := showParams_get Types.onHidden this) in C.
  destruct C as [H1 H2 H3 H4]. cbn.
  destruct (callStack (call _ this)) as [|next rest] eqn:E.
  - constructor; cbn; try discriminate. rewrite E. intros o [].
  - apply consistent_showNotification. constructor; cbn; try discriminate.
    intros o Ho. apply H1. right. assumption.
Qed.

Lemma consistent_constructor props0 : consistent (constructor props0).
Proof. constructor; cbn; try discriminate. intros o []. Qed.

Lemma consistent_step e this : consistent this -> consistent (step e this).
Proof.
  intros C. destruct e; cbn.
  - apply consistent_showNotification, C.
  - apply consistent_hideNotification, C.
  - unfold hideNotificationById. destruct (_ && _);
      [apply consistent_hideNotification|]; exact C.
  - unfold clearQueue.
    assert (C0 : consistent (set_callStack [] this)).
    { destruct C as [H1 H2 H3 H4].
      constructor; cbn; auto; try (intros o []); try (intros cur _ []). }
    destruct (truthy_bool _); [apply consistent_hideNotification|]; exact C0.
  - unfold clearNotificationById.
    match goal with |- context [set_callStack ?q this] =>
      assert (C0 : consistent (set_callStack q this)) end.
    { destruct C as [H1 H2 H3 H4]. constructor; cbn; auto.
      - intros o Ho. apply filter_In in Ho. apply H1, Ho.
      - intros cur Hc Hq. apply (H3 cur Hc). unfold queued in *. cbn in Hq.
        apply in_map_iff in Hq. destruct Hq as (o & E & Ho).
        apply filter_In in Ho. apply in_map_iff. exists o. tauto. }
    destruct (nullish _ true); [|exact C0].
    unfold hideNotificationById. destruct (_ && _);
      [apply consistent_hideNotification|]; exact C0.
  - destruct (hideTimer this); [|exact C].
    apply consistent_hideNotification.
    destruct C as [H1 H2 H3 H4]. constructor; assumption.
  - destruct (nth_error (animations this) k) as [a|]; [|exact C].
    assert (C0 : consistent (set_animations (remove_nth k (animations this)) this))
      by (destruct C as [H1 H2 H3 H4]; constructor; assumption).
    destruct (onEnd a) as [|cb|[|]]; cbn.
    + exact C0.
    + apply consistent_call, consistent_onHidden, C0.
    + apply consistent_onHidden, C0.
    + exact C0.
  - unfold onHandlerStateChange.
    match goal with |- context [if State_eqb ?a ACTIVE then clearTimeout this else this] =>
      assert (C0 : consistent (if State_eqb a ACTIVE then clearTimeout this else this))
    end.
    { destruct (State_eqb _ _); [|exact C].
      destruct C as [H1 H2 H3 H4]; constructor; assumption. }
    destruct (negb _); [exact C0|].
    destruct (isSwipedOut _ _);
      [apply consistent_onStartHiding|];
      apply consistent_timing_start, consistent_setHideTimer, C0.
  - unfold onPress.
    pose proof (consistent_call (showParams_get Types.onPress this) this C) as C0.
    destruct (showParams_get hideOnPress _) as [[|]|];
      [apply consistent_hideNotification| |apply consistent_hideNotification]; exact C0.
  - destruct C as [H1 H2 H3 H4]; constructor; assumption.
Qed.

Lemma consistent_run es : forall this, consistent this -> consistent (run es this).
Proof.
  induction es as [|e es IH]; intros this C; cbn; [exact C|].
  apply IH, consistent_step, C.
Qed.

Lemma reachable_consistent this : reachable this -> consistent this.
Proof.
  intros (props0 & es & ->). apply consistent_run, consistent_constructor.
Qed.

Lemma hideNotification_hiding cb this :
  isHiding this = true -> isHiding (hideNotification cb this) = true.
Proof.
  intros H. unfold hideNotification. rewrite H, orb_true_r. exact H.
Qed.

Lemma discarded_hideNotification a cb this :
  discarded a this -> discarded a (hideNotification cb this).
Proof.
  intros [D1 D2 D3].
  pose proof (hideNotification_core cb this) as (E1 & E2 & E3 & _).
  constructor; rewrite ?E1, ?E2, ?E3; auto.
  intros cur Hc Ha. apply hideNotification_hiding. eauto.
Qed.

Lemma discarded_hide_queue a q this :
  discarded a this -> ~ In a (map addr q) ->
  discarded a (hideNotification None (set_callStack q this)).
Proof.
  intros [D1 D2 D3] Hq. apply discarded_hideNotification.
  constructor; cbn; auto.
Qed.

Lemma discarded_enqueue a params this :
  discarded a this -> addr params <> a ->
  discarded a (enqueue params this).
Proof.
  intros D F. pose proof D as [D1 D2 D3].
  assert (L : forall b, ~ In a (map addr (callStack (showCurrentLater b this)))).
  { intros b. destruct (showCurrentLater_callStack b this) as [E|(cur & Hc & Hh & E)];
      rewrite E; [assumption|].
    cbn. intros [Ha|Ha]; [|contradiction].
    specialize (D3 cur Hc Ha). congruence. }
  unfold enqueue.
  repeat match goal with
         | |- context [if case_label ?m ?s then _ else _] =>
             destruct (case_label m s)
         end;
    rewrite ?showCurrentLater_frame;
    try (apply discarded_hide_queue; [assumption|]); cbn.
  - constructor; cbn; auto. rewrite map_app, in_app_iff. cbn. tauto.
  - constructor; cbn; auto. tauto.
  - tauto.
  - specialize (L false). tauto.
  - specialize (L true). tauto.
  - tauto.
Qed.

Lemma discarded_showNotification a functionParams this :
  discarded a this -> discarded a (showNotification functionParams this).
Proof.
  intros D. pose proof D as [D1 D2 D3]. unfold showNotification.
  assert (D' : discarded a (set_heap_next (S (heap_next this)) this))
    by (constructor; cbn; auto).
  destruct (skipped_as_shown _ _); [assumption|].
  destruct (skipped_as_queued _ _); [assumption|].
  cbn [isShown set_heap_next]. destruct (isShown this).
  - apply discarded_enqueue; [assumption|]. cbn. lia.
  - unfold display. unfold setHideTimer, clearTimeout.
    destruct (_ && _); constructor; cbn; auto; intros cur [= <-]; cbn; lia.
Qed.

Lemma discarded_onHidden a this : discarded a this -> discarded a (onHidden this).
Proof.
  intros [D1 D2 D3]. unfold onHidden. rewrite call_log. cbn.
  destruct (callStack this) as [|next rest] eqn:E.
  - constructor; cbn; try discriminate; auto. rewrite E. auto.
  - apply discarded_showNotification. constructor; cbn; try discriminate; auto.
    cbn in D2. tauto.
Qed.

Lemma discarded_frame a this this' :
  heap_next this' = heap_next this ->
  callStack this' = callStack this ->
  currentParams this' = currentParams this ->
  (isHiding this = true -> isHiding this' = true) ->
  discarded a this -> discarded a this'.
Proof.
  intros E1 E2 E3 E4 [D1 D2 D3].
  constructor; rewrite ?E1, ?E2, ?E3; eauto.
Qed.

Lemma discarded_step a e this : discarded a this -> discarded a (step e this).
Proof.
  intros D. destruct e; cbn.
  - apply discarded_showNotification, D.
  - apply discarded_hideNotification, D.
  - unfold hideNotificationById. destruct (_ && _);
      [apply discarded_hideNotification|]; exact D.
  - unfold clearQueue.
    assert (D0 : discarded a (set_callStack [] this))
      by (destruct D as [D1 D2 D3]; constructor; cbn; auto).
    destruct (truthy_bool _); [apply discarded_hideNotification|]; exact D0.
  - unfold clearNotificationById.
    match goal with |- context [set_callStack ?q this] =>
      assert (D0 : discarded a (set_callStack q this)) end.
    { destruct D as [D1 D2 D3]. constructor; cbn; auto.
      intros Hq. apply D2. apply in_map_iff in Hq. destruct Hq as (o & E & Ho).
      apply filter_In in Ho. apply in_map_iff. exists o. tauto. }
    destruct (nullish _ true); [|exact D0].
    unfold hideNotificationById. destruct (_ && _);
      [apply discarded_hideNotification|]; exact D0.
  - destruct (hideTimer this); [|exact D].
    apply discarded_hideNotification.
    revert D. apply discarded_frame; auto.
  - destruct (nth_error (animations this) k) as [x|]; [|exact D].
    assert (D0 : discarded a (set_animations (remove_nth k (animations this)) this))
      by (revert D; apply discarded_frame; auto).
    destruct (onEnd x) as [|cb|[|]]; cbn.
    + exact D0.
    + rewrite call_log. generalize (discarded_onHidden a _ D0).
      apply discarded_frame; auto.
    + apply discarded_onHidden, D0.
    + exact D0.
  - unfold onHandlerStateChange.
    match goal with |- context [if State_eqb ?s ACTIVE then clearTimeout this else this] =>
      assert (D0 : discarded a (if State_eqb s ACTIVE then clearTimeout this else this))
    end.
    { destruct (State_eqb _ _); [|exact D]. revert D. apply discarded_frame; auto. }
    destruct (negb _); [exact D0|].
    match goal with |- context [setHideTimer ?t] =>
      assert (D1 : discarded a (setHideTimer t)) end.
    { unfold setHideTimer, clearTimeout. revert D0.
      destruct (_ && _); apply discarded_frame; auto. }
    destruct (isSwipedOut _ _).
    + unfold onStartHiding. rewrite call_log. revert D1.
      apply discarded_frame; auto.
    + revert D1. apply discarded_frame; auto.
  - unfold onPress.
    assert (D0 : discarded a (call (showParams_get Types.onPress this) this))
      by (rewrite call_log; revert D; apply discarded_frame; auto).
    destruct (showParams_get hideOnPress _) as [[|]|];
      [apply discarded_hideNotification| |apply discarded_hideNotification]; exact D0.
  - revert D. apply discarded_frame; auto.
Qed.

Lemma discarded_run a es : forall this, discarded a this -> discarded a (run es this).
Proof.
  induction es as [|e es IH]; intros this D; cbn; [exact D|].
  apply IH, discarded_step, D.
Qed.

(* ================================================================== *)
(** ** The hide path *)

Lemma hideNotification_guarded cb this :
  isShown this = false \/ isHiding this = true ->
  hideNotification cb this = this.
Proof.
  unfold hideNotification. intros [-> | ->]; [reflexivity|].
  rewrite orb_true_r. reflexivity.
Qed.

Lemma hideNotification_started cb this :
  isShown this = true -> isHiding this = false ->
  hide_started cb this (hideNotification cb this).
Proof.
  intros Hs H. unfold hideNotification, hide_started. rewrite Hs, H. cbn.
  unfold onStartHiding. rewrite call_log. cbn.
  rewrite <- app_assoc. auto.
Qed.

Lemma hide_started_frame cb this0 this this' :
  showParams this0 = showParams this ->
  animations this0 = animations this ->
  log this0 = log this ->
  hide_started cb this0 this' -> hide_started cb this this'.
Proof.
  unfold hide_started, exit_animation, showParams_get.
  intros -> -> ->. auto.
Qed.

(* ================================================================== *)
(** ** The queue policy *)

Lemma case_label_true m s : case_label m s = true <-> m = Some s.
Proof.
  unfold case_label, strict_eq_string. destruct m as [x|].
  - rewrite String.eqb_eq. split; congruence.
  - split; discriminate.
Qed.

Lemma case_label_false m s : case_label m s = false <-> m <> Some s.
Proof.
  rewrite <- case_label_true. destruct (case_label m s); split; congruence.
Qed.

Lemma enqueue_default params this :
  default_mode (get (queueMode (fields params))) ->
  enqueue params this = hideNotification None (set_callStack [params] this).
Proof.
  intros (M1 & M2 & M3 & M4 & M5). unfold enqueue.
  apply case_label_false in M1, M2, M3, M4, M5.
  rewrite M1, M2, M3, M4, M5. reflexivity.
Qed.

Lemma enqueue_standby params this :
  get (queueMode (fields params)) = Some "standby" ->
  enqueue params this = set_callStack (callStack this ++ [params]) this.
Proof. intros M. unfold enqueue. rewrite M. reflexivity. Qed.

Lemma enqueue_next params this :
  get (queueMode (fields params)) = Some "next" ->
  enqueue params this = set_callStack (params :: callStack this) this.
Proof. intros M. unfold enqueue. rewrite M. reflexivity. Qed.

Lemma enqueue_immediateMove params this :
  get (queueMode (fields params)) = Some "immediateMove" ->
  enqueue params this =
  hideNotification None
    (set_callStack (params :: callStack (showCurrentLater false this)) this).
Proof.
  intros M. unfold enqueue. rewrite M. cbn.
  rewrite showCurrentLater_frame. reflexivity.
Qed.

Lemma enqueue_immediateMoveOnlyStrong params this :
  get (queueMode (fields params)) = Some "immediateMoveOnlyStrong" ->
  enqueue params this =
  hideNotification None
    (set_callStack (params :: callStack (showCurrentLater true this)) this).
Proof.
  intros M. unfold enqueue. rewrite M. cbn.
  rewrite showCurrentLater_frame. reflexivity.
Qed.

(** A request that no skip rule drops, shown while a notification is
    displayed, goes through the [switch] on its [queueMode]. *)
Lemma showNotification_enqueue B this :
  isShown this = true ->
  skipped_as_shown (fields (merged B this)) this = false ->
  skipped_as_queued (fields (merged B this)) this = false ->
  showNotification B this =
  enqueue (merged B this) (set_heap_next (S (heap_next this)) this).
Proof.
  intros Hs K1 K2. unfold showNotification.
  change (skipped_as_shown (fields (merged B this))
            (set_heap_next (S (heap_next this)) this))
    with (skipped_as_shown (fields (merged B this)) this).
  change (skipped_as_queued (fields (merged B this))
            (set_heap_next (S (heap_next this)) this))
    with (skipped_as_queued (fields (merged B this)) this).
  rewrite K1, K2. cbn [isShown set_heap_next]. rewrite Hs. reflexivity.
Qed.

(** C1.  Whenever a notification [A] is displayed, whatever the queue holds,
    [showNotification(B)] with [queueMode] ['reset'], a value that is no
    [case] label, or none (and [B] not dropped by a skip rule) makes the queue
    exactly [[B]] and runs [hideNotification] for [A]: [A] is hiding
    afterwards, the hide path starts now unless it was already running, and
    [A] is never in the queue again, whatever happens next. *)
Theorem show_reset_replaces_queue (this : NotifierRoot) (A : Object)
  (B : ShowNotificationParams) :
  reachable this ->
  isShown this = true ->
  currentParams this = Some A ->
  skipped_as_shown (fields (merged B this)) this = false ->
  skipped_as_queued (fields (merged B this)) this = false ->
  default_mode (get (queueMode (fields (merged B this)))) ->
  callStack (showNotification B this) = [merged B this]
  /\ showNotification B this =
     hideNotification None
       (set_callStack [merged B this] (set_heap_next (S (heap_next this)) this))
  /\ currentParams (showNotification B this) = Some A
  /\ isHiding (showNotification B this) = true
  /\ (isHiding this = false -> hide_started None this (showNotification B this))
  /\ (forall es, ~ queued A (run es (showNotification B this))).
Proof.
  intros R Hs Hc K1 K2 M.
  rewrite (showNotification_enqueue B this Hs K1 K2), (enqueue_default _ _ M).
  set (this1 := set_callStack _ _).
  pose proof (hideNotification_core None this1) as (E1 & E2 & E3 & _).
  assert (H : isHiding (hideNotification None this1) = true)
    by (apply hideNotification_shown; exact Hs).
  refine (conj _ (conj _ (conj _ (conj _ (conj _ _))))); auto.
  - rewrite E3. exact Hc.
  - intros Hh. apply hide_started_frame with (this0 := this1); auto.
    apply hideNotification_started; auto.
  - intros es. apply (discarded_run (addr A)).
    apply reachable_consistent in R. destruct R as [_ R2 _ _].
    specialize (R2 A Hc).
    constructor; rewrite ?E1, ?E2, ?E3; cbn; auto.
    lia.
Qed.

Lemma show_reset_replaces_queue_witness :
  callStack (showNotification (request "b" (Val "reset")) A_shown_XY_queued)
  = [merged (request "b" (Val "reset")) A_shown_XY_queued]
  /\ forall es,
       ~ queued object_A
           (run es (showNotification (request "b" (Val "reset")) A_shown_XY_queued)).
Proof.
  assert (R : reachable A_shown_XY_queued).
  { exists empty_params,
      [ShowNotification (request "a" Absent);
       ShowNotification (request "x" (Val "standby"));
       ShowNotification (request "y" (Val "standby"))].
    vm_compute. reflexivity. }
  assert (Hs : isShown A_shown_XY_queued = true) by (vm_compute; reflexivity).
  assert (Hc : currentParams A_shown_XY_queued = Some object_A)
    by (vm_compute; reflexivity).
  assert (K1 : skipped_as_shown
                 (fields (merged (request "b" (Val "reset")) A_shown_XY_queued))
                 A_shown_XY_queued = false) by (vm_compute; reflexivity).
  assert (K2 : skipped_as_queued
                 (fields (merged (request "b" (Val "reset")) A_shown_XY_queued))
                 A_shown_XY_queued = false) by (vm_compute; reflexivity).
  assert (M : default_mode
                (get (queueMode (fields (merged (request "b" (Val "reset"))
                                                A_shown_XY_queued))))).
  { vm_compute. repeat split; discriminate. }
  pose proof (show_reset_replaces_queue A_shown_XY_queued object_A
                (request "b" (Val "reset")) R Hs Hc K1 K2 M) as T.
  exact (conj (proj1 T) (proj2 (proj2 (proj2 (proj2 (proj2 T)))))).
Defined.

(** C2 (as stated, refuted).  After [showNotification] with ['immediateMove']
    the displayed request sits in the queue while it hides. *)
Lemma queue_holds_displayed_while_hiding : ~ queue_never_holds_displayed.
Proof.
  intros claim.
  apply (claim (run [ShowNotification (request "b" (Val "immediateMove"))] A_shown)
               object_A).
  - exists empty_params,
      [ShowNotification (request "a" Absent);
       ShowNotification (request "b" (Val "immediateMove"))].
    vm_compute. reflexivity.
  - vm_compute. reflexivity.
  - vm_compute. right. left. reflexivity.
Qed.

(** C2 (amended).  In every reachable state where a request is displayed and
    no hide is in progress, the queue does not hold the displayed request:
    the queue holds it only while it hides. *)
Theorem displayed_queued_only_while_hiding (this : NotifierRoot) (cur : Object) :
  reachable this ->
  currentParams this = Some cur ->
  isHiding this = false ->
  ~ queued cur this.
Proof.
  intros R Hc Hh Hq. apply reachable_consistent in R.
  rewrite (current_queued_hiding this R cur Hc Hq) in Hh. discriminate.
Qed.

Lemma displayed_queued_only_while_hiding_witness :
  ~ queued object_A A_shown_XY_queued.
Proof.
  apply displayed_queued_only_while_hiding.
  - exists empty_params,
      [ShowNotification (request "a" Absent);
       ShowNotification (request "x" (Val "standby"));
       ShowNotification (request "y" (Val "standby"))].
    vm_compute. reflexivity.
  - vm_compute. reflexivity.
  - vm_compute. reflexivity.
Defined.

(** C3 (as stated, refuted).  While the exit animation of the displayed
    request runs, ['immediateMove'] does not put it back in the queue. *)
Lemma immediateMove_while_hiding_drops_current : ~ immediateMove_always_requeues.
Proof.
  intros claim.
  destruct (claim A_hiding object_A (request "b" (Val "immediateMove")))
    as (rest & E).
  - exists empty_params,
      [ShowNotification (request "a" Absent); HideNotification None].
    vm_compute. reflexivity.
  - vm_compute. reflexivity.
  - vm_compute. reflexivity.
  - vm_compute. reflexivity.
  - vm_compute. reflexivity.
  - vm_compute. reflexivity.
  - vm_compute in E. discriminate E.
Qed.

(** C3 (amended).  When a notification is displayed and no hide is in
    progress, [showNotification(B)] with ['immediateMove'] (and [B] not
    dropped by a skip rule) puts the displayed request at the front of the
    queue, then [B] in front of it, then starts the hide path.  While the
    exit animation runs, the displayed request is not put back: [B] alone
    goes to the front and nothing else changes. *)
Theorem show_immediateMove (this : NotifierRoot) (A : Object)
  (B : ShowNotificationParams) :
  isShown this = true ->
  currentParams this = Some A ->
  skipped_as_shown (fields (merged B this)) this = false ->
  skipped_as_queued (fields (merged B this)) this = false ->
  get (queueMode (fields (merged B this))) = Some "immediateMove" ->
  (isHiding this = false ->
     callStack (showNotification B this) = merged B this :: A :: callStack this
     /\ currentParams (showNotification B this) = Some A
     /\ hide_started None this (showNotification B this))
  /\ (isHiding this = true ->
        showNotification B this =
        set_callStack (merged B this :: callStack this)
                      (set_heap_next (S (heap_next this)) this)).
Proof.
  intros Hs Hc K1 K2 M.
  rewrite (showNotification_enqueue B this Hs K1 K2), (enqueue_immediateMove _ _ M).
  unfold showCurrentLater. cbn [currentParams set_heap_next isShown isHiding callStack].
  rewrite Hc, Hs. cbn [negb orb].
  split; intros Hh; rewrite Hh; cbn [negb orb callStack set_callStack].
  - set (this1 := set_callStack _ _).
    pose proof (hideNotification_core None this1) as (E1 & E2 & E3 & _).
    rewrite E1, E3. refine (conj eq_refl (conj Hc _)).
    apply hide_started_frame with (this0 := this1); auto.
    apply hideNotification_started; auto.
  - apply hideNotification_guarded. right. exact Hh.
Qed.

Lemma show_immediateMove_witness :
  callStack (showNotification (request "b" (Val "immediateMove")) A_shown_X_queued)
  = merged (request "b" (Val "immediateMove")) A_shown_X_queued
      :: object_A :: callStack A_shown_X_queued.
Proof.
  assert (Hs : isShown A_shown_X_queued = true) by (vm_compute; reflexivity).
  assert (Hc : currentParams A_shown_X_queued = Some object_A)
    by (vm_compute; reflexivity).
  assert (K1 : skipped_as_shown
                 (fields (merged (request "b" (Val "immediateMove")) A_shown_X_queued))
                 A_shown_X_queued = false) by (vm_compute; reflexivity).
  assert (K2 : skipped_as_queued
                 (fields (merged (request "b" (Val "immediateMove")) A_shown_X_queued))
                 A_shown_X_queued = false) by (vm_compute; reflexivity).
  assert (M : get (queueMode (fields (merged (request "b" (Val "immediateMove"))
                                             A_shown_X_queued)))
              = Some "immediateMove") by (vm_compute; reflexivity).
  assert (Hh : isHiding A_shown_X_queued = false) by (vm_compute; reflexivity).
  exact (proj1 (proj1 (show_immediateMove A_shown_X_queued object_A
                         (request "b" (Val "immediateMove")) Hs Hc K1 K2 M) Hh)).
Defined.

(** C5.  While a notification is displayed, [showNotification(B)] (with [B]
    not dropped by a skip rule) puts [B] at the front of the queue when its
    [queueMode] is ['next'] and at the back when it is ['standby']: a queue
    [[X]] becomes [[B; X]] and [[X; B]].  Nothing else changes: the displayed
    request, both flags, the timer, the running animations and the effect log
    are as before, so no hide starts. *)
Theorem show_next_and_standby (this : NotifierRoot) (B : ShowNotificationParams) :
  isShown this = true ->
  skipped_as_shown (fields (merged B this)) this = false ->
  skipped_as_queued (fields (merged B this)) this = false ->
  (get (queueMode (fields (merged B this))) = Some "next" ->
     showNotification B this =
     set_callStack (merged B this :: callStack this)
                   (set_heap_next (S (heap_next this)) this))
  /\ (get (queueMode (fields (merged B this))) = Some "standby" ->
        showNotification B this =
        set_callStack (callStack this ++ [merged B this])
                      (set_heap_next (S (heap_next this)) this))
  /\ (get (queueMode (fields (merged B this))) = Some "next"
      \/ get (queueMode (fields (merged B this))) = Some "standby" ->
        currentParams (showNotification B this) = currentParams this
        /\ showParams (showNotification B this) = showParams this
        /\ state (showNotification B this) = state this
        /\ isShown (showNotification B this) = isShown this
        /\ isHiding (showNotification B this) = isHiding this
        /\ hideTimer (showNotification B this) = hideTimer this
        /\ animations (showNotification B this) = animations this
        /\ log (showNotification B this) = log this).
Proof.
  intros Hs K1 K2. rewrite (showNotification_enqueue B this Hs K1 K2).
  split; [|split].
  - intros M. rewrite (enqueue_next _ _ M). reflexivity.
  - intros M. rewrite (enqueue_standby _ _ M). reflexivity.
  - intros [M|M];
      [rewrite (enqueue_next _ _ M)|rewrite (enqueue_standby _ _ M)];
      cbn; tauto.
Qed.

Lemma show_next_and_standby_witness :
  callStack (showNotification (request "b" (Val "next")) A_shown_X_queued)
  = merged (request "b" (Val "next")) A_shown_X_queued :: callStack A_shown_X_queued
  /\ callStack (showNotification (request "b" (Val "standby")) A_shown_X_queued)
     = callStack A_shown_X_queued
         ++ [merged (request "b" (Val "standby")) A_shown_X_queued].
Proof.
  assert (Hs : isShown A_shown_X_queued = true) by (vm_compute; reflexivity).
  split.
  - assert (K1 : skipped_as_shown
                   (fields (merged (request "b" (Val "next")) A_shown_X_queued))
                   A_shown_X_queued = false) by (vm_compute; reflexivity).
    assert (K2 : skipped_as_queued
                   (fields (merged (request "b" (Val "next")) A_shown_X_queued))
                   A_shown_X_queued = false) by (vm_compute; reflexivity).
    assert (M : get (queueMode (fields (merged (request "b" (Val "next"))
                                               A_shown_X_queued)))
                = Some "next") by (vm_compute; reflexivity).
    rewrite (proj1 (show_next_and_standby A_shown_X_queued
                      (request "b" (Val "next")) Hs K1 K2) M).
    reflexivity.
  - assert (K1 : skipped_as_shown
                   (fields (merged (request "b" (Val "standby")) A_shown_X_queued))
                   A_shown_X_queued = false) by (vm_compute; reflexivity).
    assert (K2 : skipped_as_queued
                   (fields (merged (request "b" (Val "standby")) A_shown_X_queued))
                   A_shown_X_queued = false) by (vm_compute; reflexivity).
    assert (M : get (queueMode (fields (merged (request "b" (Val "standby"))
                                               A_shown_X_queued)))
                = Some "standby") by (vm_compute; reflexivity).
    rewrite (proj1 (proj2 (show_next_and_standby A_shown_X_queued
                             (request "b" (Val "standby")) Hs K1 K2)) M).
    reflexivity.
Defined.

(** C6.  When a notification [A] is displayed and no hide is in progress,
    [showNotification(B)] with ['immediateMoveOnlyStrong'] (and [B] not
    dropped by a skip rule) puts [A] back in the queue exactly when [A]'s
    [strong] is [true]: the queue then starts with [[B; A]]; when [strong] is
    [false] or missing, [B] alone goes to the front and [A] is not in the
    queue.  The hide path for [A] starts in both cases. *)
Theorem show_immediateMoveOnlyStrong (this : NotifierRoot) (A : Object)
  (B : ShowNotificationParams) :
  reachable this ->
  isShown this = true ->
  isHiding this = false ->
  currentParams this = Some A ->
  skipped_as_shown (fields (merged B this)) this = false ->
  skipped_as_queued (fields (merged B this)) this = false ->
  get (queueMode (fields (merged B this))) = Some "immediateMoveOnlyStrong" ->
  (get (strong (fields A)) = Some true ->
     callStack (showNotification B this) = merged B this :: A :: callStack this)
  /\ (get (strong (fields A)) <> Some true ->
        callStack (showNotification B this) = merged B this :: callStack this)
  /\ (queued A (showNotification B this) <-> get (strong (fields A)) = Some true)
  /\ currentParams (showNotification B this) = Some A
  /\ hide_started None this (showNotification B this).
Proof.
  intros R Hs Hh Hc K1 K2 M.
  rewrite (showNotification_enqueue B this Hs K1 K2),
    (enqueue_immediateMoveOnlyStrong _ _ M).
  set (this1 := set_callStack _ _).
  pose proof (hideNotification_core None this1) as (E1 & E2 & E3 & _).
  assert (St : hide_started None this (hideNotification None this1)).
  { apply hide_started_frame with (this0 := this1); auto.
    apply hideNotification_started; auto. }
  assert (Q : callStack this1 =
              if match get (strong (fields A)) with Some true => true | _ => false end
              then merged B this :: A :: callStack this
              else merged B this :: callStack this).
  { unfold this1, showCurrentLater.
    cbn [currentParams set_heap_next isShown isHiding callStack set_callStack].
    rewrite Hc, Hs, Hh. cbn [negb orb].
    destruct (match get (strong (fields A)) with Some true => true | _ => false end);
      reflexivity. }
  apply reachable_consistent in R.
  pose proof (current_allocated this R A Hc) as Alloc.
  pose proof (fun q => current_queued_hiding this R A Hc q) as NotQ.
  unfold queued. rewrite E1, E3, Q.
  refine (conj _ (conj _ (conj _ (conj Hc St)))).
  - intros ->. reflexivity.
  - destruct (get (strong (fields A))) as [[|]|]; congruence.
  - destruct (get (strong (fields A))) as [[|]|]; cbn.
    + split; [reflexivity|]. intros _. right. left. reflexivity.
    + split; [|discriminate]. intros [E|Hq]; [lia|].
      specialize (NotQ Hq). congruence.
    + split; [|discriminate]. intros [E|Hq]; [lia|].
      specialize (NotQ Hq). congruence.
Qed.

Lemma show_immediateMoveOnlyStrong_witness :
  callStack (showNotification (request "b" (Val "immediateMoveOnlyStrong")) strong_shown)
  = merged (request "b" (Val "immediateMoveOnlyStrong")) strong_shown
      :: object_strong :: callStack strong_shown
  /\ ~ queued object_A
         (showNotification (request "b" (Val "immediateMoveOnlyStrong")) A_shown).
Proof.
  split.
  - assert (R : reachable strong_shown).
    { exists empty_params, [ShowNotification (with_strong (request "a" Absent))].
      vm_compute. reflexivity. }
    assert (Hs : isShown strong_shown = true) by (vm_compute; reflexivity).
    assert (Hh : isHiding strong_shown = false) by (vm_compute; reflexivity).
    assert (Hc : currentParams strong_shown = Some object_strong)
      by (vm_compute; reflexivity).
    assert (K1 : skipped_as_shown
                   (fields (merged (request "b" (Val "immediateMoveOnlyStrong"))
                                   strong_shown))
                   strong_shown = false) by (vm_compute; reflexivity).
    assert (K2 : skipped_as_queued
                   (fields (merged (request "b" (Val "immediateMoveOnlyStrong"))
                                   strong_shown))
                   strong_shown = false) by (vm_compute; reflexivity).
    assert (M : get (queueMode
                       (fields (merged (request "b" (Val "immediateMoveOnlyStrong"))
                                       strong_shown)))
                = Some "immediateMoveOnlyStrong") by (vm_compute; reflexivity).
    apply (proj1 (show_immediateMoveOnlyStrong strong_shown object_strong
                    (request "b" (Val "immediateMoveOnlyStrong"))
                    R Hs Hh Hc K1 K2 M)).
    vm_compute. reflexivity.
  - assert (R : reachable A_shown).
    { exists empty_params, [ShowNotification (request "a" Absent)].
      vm_compute. reflexivity. }
    assert (Hs : isShown A_shown = true) by (vm_compute; reflexivity).
    assert (Hh : isHiding A_shown = false) by (vm_compute; reflexivity).
    assert (Hc : currentParams A_shown = Some object_A)
      by (vm_compute; reflexivity).
    assert (K1 : skipped_as_shown
                   (fields (merged (request "b" (Val "immediateMoveOnlyStrong"))
                                   A_shown))
                   A_shown = false) by (vm_compute; reflexivity).
    assert (K2 : skipped_as_queued
                   (fields (merged (request "b" (Val "immediateMoveOnlyStrong"))
                                   A_shown))
                   A_shown = false) by (vm_compute; reflexivity).
    assert (M : get (queueMode
                       (fields (merged (request "b" (Val "immediateMoveOnlyStrong"))
                                       A_shown)))
                = Some "immediateMoveOnlyStrong") by (vm_compute; reflexivity).
    intros Hq.
    apply (proj1 (proj2 (proj2 (show_immediateMoveOnlyStrong A_shown object_A
                    (request "b" (Val "immediateMoveOnlyStrong"))
                    R Hs Hh Hc K1 K2 M)))) in Hq.
    vm_compute in Hq. discriminate Hq.
Defined.

(** C7 (as stated, refuted).  A request whose [id] is the empty string is not
    dropped, although the displayed request has the same [id]: an empty [id]
    is falsy, the component takes the request as one without [id]. *)
Lemma skipAlreadyShown_keeps_empty_id : ~ skipAlreadyShown_drops_every_equal_id.
Proof.
  intros claim.
  assert (E : showNotification (with_skipAlreadyShown (request EmptyString Absent))
                empty_id_shown
              = set_heap_next (S (heap_next empty_id_shown)) empty_id_shown).
  { apply (claim empty_id_shown object_empty_id _ EmptyString).
    - exists empty_params, [ShowNotification (request EmptyString Absent)].
      vm_compute. reflexivity.
    - vm_compute. reflexivity.
    - vm_compute. reflexivity.
    - vm_compute. reflexivity.
    - vm_compute. reflexivity.
    - vm_compute. reflexivity.
    - vm_compute. reflexivity. }
  apply (f_equal isHiding) in E. vm_compute in E. discriminate E.
Qed.

(** C7 (amended).  While a notification is displayed and no hide is in
    progress, [showNotification(R)] drops every request [R] with
    [skipAlreadyShown] set and an [id] that is a non-empty string equal to
    [this.state.id], the [id] of the displayed request as the component's
    React state holds it: the displayed request, the hiding flag, the queue,
    the running animations, the timer and the effect log are as before (only
    the address of the discarded [params] object is used up). *)
Theorem skipAlreadyShown_drops_request (this : NotifierRoot)
  (R : ShowNotificationParams) (i : string) :
  isShown this = true ->
  isHiding this = false ->
  state_id (state this) = Some i ->
  i <> EmptyString ->
  get (skipAlreadyShown (fields (merged R this))) = Some true ->
  get (id (fields (merged R this))) = Some i ->
  showNotification R this = set_heap_next (S (heap_next this)) this
  /\ currentParams (showNotification R this) = currentParams this
  /\ isShown (showNotification R this) = isShown this
  /\ isHiding (showNotification R this) = isHiding this
  /\ callStack (showNotification R this) = callStack this
  /\ animations (showNotification R this) = animations this
  /\ hideTimer (showNotification R this) = hideTimer this
  /\ log (showNotification R this) = log this
  /\ Stopping.showNotification R this = showNotification R this.
Proof.
  intros Hs Hh Si Ne Sk Ir.
  assert (K : skipped_as_shown (fields (merged R this))
                (set_heap_next (S (heap_next this)) this) = true).
  { unfold skipped_as_shown. cbn [isShown isHiding state set_heap_next].
    rewrite Sk, Ir, Hs, Hh, Si. cbn.
    apply String.eqb_neq in Ne. rewrite Ne, String.eqb_refl. reflexivity. }
  assert (E : showNotification R this = set_heap_next (S (heap_next this)) this)
    by (unfold showNotification; rewrite K; reflexivity).
  assert (E' : Stopping.showNotification R this
               = set_heap_next (S (heap_next this)) this)
    by (unfold Stopping.showNotification, Stopping.showNotification_with;
        rewrite K; reflexivity).
  rewrite E' , E. cbn. tauto.
Qed.

Lemma skipAlreadyShown_drops_request_witness :
  showNotification (with_skipAlreadyShown (request "a" Absent)) A_shown
  = set_heap_next (S (heap_next A_shown)) A_shown.
Proof.
  apply (skipAlreadyShown_drops_request A_shown
           (with_skipAlreadyShown (request "a" Absent)) "a").
  - vm_compute. reflexivity.
  - vm_compute. reflexivity.
  - vm_compute. reflexivity.
  - discriminate.
  - vm_compute. reflexivity.
  - vm_compute. reflexivity.
Defined.

(* ================================================================== *)
(** ** Hiding *)

(** C8.  [hideNotification] and [hideNotificationById] change nothing when
    nothing is displayed or a hide is already in progress (and, being total
    functions, raise nothing).  Hence a second [hideNotification] right after
    a first one changes nothing, and two calls in a row on a displayed
    notification start exactly one exit animation and run [onStartHiding]
    once. *)
Theorem hide_is_guarded (this : NotifierRoot) (callback callback' : option Callback)
  (id0 : string) :
  (isShown this = false \/ isHiding this = true ->
     hideNotification callback this = this
     /\ hideNotificationById id0 callback this = this)
  /\ hideNotification callback' (hideNotification callback this)
     = hideNotification callback this
  /\ (isShown this = true -> isHiding this = false ->
        hide_started callback this
          (hideNotification callback' (hideNotification callback this))).
Proof.
  assert (Twice : hideNotification callback' (hideNotification callback this)
                  = hideNotification callback this).
  { destruct (isShown this) eqn:Hs.
    - apply hideNotification_guarded. right.
      apply hideNotification_shown. exact Hs.
    - rewrite (hideNotification_guarded callback this) by (left; exact Hs).
      apply hideNotification_guarded. left. exact Hs. }
  refine (conj _ (conj Twice _)).
  - intros G. split; [apply hideNotification_guarded; exact G|].
    unfold hideNotificationById.
    destruct G as [-> | ->]; [reflexivity|].
    rewrite andb_false_r. reflexivity.
  - intros Hs Hh. rewrite Twice. apply hideNotification_started; assumption.
Qed.

Lemma hide_is_guarded_witness :
  hideNotification None callbacks_hiding = callbacks_hiding
  /\ hideNotificationById "a" None callbacks_hiding = callbacks_hiding
  /\ log (hideNotification None (hideNotification None callbacks_shown))
     = log callbacks_shown
         ++ [AnimatedTimingStart (exit_animation None callbacks_shown)]
         ++ [Invoke "startHiding"].
Proof.
  assert (G : isShown callbacks_hiding = false \/ isHiding callbacks_hiding = true)
    by (right; vm_compute; reflexivity).
  assert (Hs : isShown callbacks_shown = true) by (vm_compute; reflexivity).
  assert (Hh : isHiding callbacks_shown = false) by (vm_compute; reflexivity).
  pose proof (proj1 (hide_is_guarded callbacks_hiding None None "a") G) as [T1 T2].
  pose proof (proj2 (proj2 (hide_is_guarded callbacks_shown None None "a")) Hs Hh)
    as (_ & T3 & _).
  exact (conj T1 (conj T2 T3)).
Defined.


(* ================================================================== *)
(** ** Swipe and timer *)

Lemma lt_neg_iff (d p : Q) : lt (Num d) (neg (Num p)) = true <-> (d < - p)%Q.
Proof.
  cbn. rewrite negb_true_iff. split.
  - intros H. apply Qnot_le_lt. intros L. apply Qle_bool_iff in L. congruence.
  - intros H. destruct (Qle_bool (- p) d) eqn:E; [|reflexivity].
    apply Qle_bool_iff in E. apply Qlt_not_le in H. contradiction.
Qed.






(* ================================================================== *)
(** ** Merging the defaults *)

Lemma spread_idem {A} (a b : prop A) : spread a (spread a b) = spread a b.
Proof. destruct b, a; reflexivity. Qed.

Lemma spread_ShowParams_idem a b :
  spread_ShowParams a (spread_ShowParams a b) = spread_ShowParams a b.
Proof. unfold spread_ShowParams. cbn. rewrite !spread_idem. reflexivity. Qed.

Lemma spread_params_idem a b :
  spread_params a (spread_params a b) = spread_params a b.
Proof.
  unfold spread_params. cbn. rewrite spread_ShowParams_idem, !spread_idem.
  reflexivity.
Qed.

(* ================================================================== *)
(** ** What the methods leave alone *)

Lemma props_hideNotification cb this : props (hideNotification cb this) = props this.
Proof. apply hideNotification_core. Qed.

Lemma enqueue_core params this :
  currentParams (enqueue params this) = currentParams this
  /\ isShown (enqueue params this) = isShown this
  /\ showParams (enqueue params this) = showParams this
  /\ heap_next (enqueue params this) = heap_next this
  /\ props (enqueue params this) = props this
  /\ state (enqueue params this) = state this.
Proof.
  unfold enqueue.
  repeat match goal with
         | |- context [if case_label ?m ?s then _ else _] =>
             destruct (case_label m s)
         end;
    rewrite ?showCurrentLater_frame;
    try match goal with
        | |- context [hideNotification None ?t] =>
            pose proof (hideNotification_core None t) as (E1 & E2 & E3 & E4 & E5 & E6 & E7);
            rewrite E2, E3, E4, E5, E6, E7
        end; cbn; tauto.
Qed.

(** The queue after the [switch]: one of four shapes. *)
Lemma enqueue_callStack params this :
  callStack (enqueue params this) = callStack this ++ [params]
  \/ callStack (enqueue params this) = params :: callStack this
  \/ (exists cur, currentParams this = Some cur /\ isHiding this = false
                  /\ callStack (enqueue params this) = params :: cur :: callStack this)
  \/ callStack (enqueue params this) = [params].
Proof.
  unfold enqueue.
  repeat match goal with
         | |- context [if case_label ?m ?s then _ else _] =>
             destruct (case_label m s)
         end;
    rewrite ?showCurrentLater_frame;
    try match goal with
        | |- context [hideNotification None ?t] =>
            pose proof (hideNotification_core None t) as (E1 & _); rewrite E1
        end; cbn; auto.
  - destruct (showCurrentLater_callStack false this) as [E|(cur & Hc & Hh & E)];
      rewrite E; eauto 10.
  - destruct (showCurrentLater_callStack true this) as [E|(cur & Hc & Hh & E)];
      rewrite E; eauto 10.
Qed.

Lemma props_showNotification R this : props (showNotification R this) = props this.
Proof.
  unfold showNotification.
  destruct (skipped_as_shown _ _); [reflexivity|].
  destruct (skipped_as_queued _ _); [reflexivity|].
  destruct (isShown _).
  - pose proof (enqueue_core (merged R this) (set_heap_next (S (heap_next this)) this))
      as (_ & _ & _ & _ & E & _). rewrite E. reflexivity.
  - unfold display, setHideTimer, clearTimeout. cbn. destruct (_ && _); reflexivity.
Qed.

Lemma props_onHidden this : props (onHidden this) = props this.
Proof.
  unfold onHidden. rewrite call_log. cbn.
  destruct (callStack this); [reflexivity|]. rewrite props_showNotification. reflexivity.
Qed.

Lemma props_step e this : props (step e this) = props this.
Proof.
  destruct e; cbn.
  - apply props_showNotification.
  - apply props_hideNotification.
  - unfold hideNotificationById. destruct (_ && _); [apply props_hideNotification|reflexivity].
  - unfold clearQueue. destruct (truthy_bool _);
      [rewrite props_hideNotification|]; reflexivity.
  - unfold clearNotificationById, hideNotificationById.
    destruct (nullish _ true); [|reflexivity].
    destruct (_ && _); [rewrite props_hideNotification|]; reflexivity.
  - destruct (hideTimer this); [rewrite props_hideNotification|]; reflexivity.
  - destruct (nth_error _ _) as [a|]; [|reflexivity].
    destruct (onEnd a) as [|cb|[|]]; cbn; rewrite ?call_log; cbn;
      rewrite ?props_onHidden; reflexivity.
  - unfold onHandlerStateChange.
    destruct (State_eqb (ev_state nativeEvent) ACTIVE), (negb _); cbn; try reflexivity;
      unfold setHideTimer, clearTimeout, onStartHiding, Animated_timing_start;
      rewrite ?call_log; cbn;
      repeat match goal with
             | |- context [if ?b then _ else _] => destruct b
             end; rewrite ?call_log; reflexivity.
  - unfold onPress. rewrite call_log.
    destruct (showParams_get hideOnPress _) as [[|]|];
      rewrite ?props_hideNotification; reflexivity.
  - reflexivity.
Qed.

Lemma props_run es : forall this, props (run es this) = props this.
Proof.
  induction es as [|e es IH]; intros this; cbn; [reflexivity|].
  rewrite IH. apply props_step.
Qed.

(* ================================================================== *)
(** ** The invariant [tidy] *)

Lemma tidy_frame this this' :
  isShown this' = isShown this ->
  currentParams this' = currentParams this ->
  showParams this' = showParams this ->
  callStack this' = callStack this ->
  props this' = props this ->
  tidy this -> tidy this'.
Proof.
  intros E1 E2 E3 E4 E5 [T1 T2 T3 T4].
  constructor; rewrite ?E1, ?E2, ?E3, ?E4, ?E5; assumption.
Qed.

Lemma tidy_hideNotification cb this : tidy this -> tidy (hideNotification cb this).
Proof.
  pose proof (hideNotification_core cb this) as (E1 & E2 & E3 & E4 & E5 & E6 & E7).
  apply tidy_frame; assumption.
Qed.

Lemma NoDup_snoc {A} (l : list A) (x : A) : NoDup l -> ~ In x l -> NoDup (l ++ [x]).
Proof.
  intros N Hx. induction N as [|y l Hy N IH]; cbn.
  - constructor; [intros []|constructor].
  - constructor.
    + rewrite in_app_iff. cbn. intros [H|[H|[]]]; [contradiction|].
      apply Hx. left. symmetry. exact H.
    + apply IH. intros H. apply Hx. right. exact H.
Qed.

Lemma tidy_enqueue params this :
  consistent this -> tidy this ->
  isShown this = true ->
  ~ In (addr params) (map addr (callStack this)) ->
  (forall cur, currentParams this = Some cur -> addr cur <> addr params) ->
  spread_params (props this) (fields params) = fields params ->
  tidy (enqueue params this).
Proof.
  intros C [T1 T2 T3 T4] Hs Fq Fc Fm.
  pose proof (enqueue_core params this) as (E1 & E2 & E3 & E4 & E5 & E6).
  constructor; rewrite ?E1, ?E2, ?E3, ?E5.
  - rewrite Hs. discriminate.
  - destruct (enqueue_callStack params this)
      as [E|[E|[(cur & Hc & Hh & E)|E]]]; rewrite E; cbn.
    + rewrite map_app. apply NoDup_snoc; assumption.
    + constructor; assumption.
    + assert (Nq : ~ queued cur this).
      { intros Hq. rewrite (current_queued_hiding this C cur Hc Hq) in Hh.
        discriminate. }
      constructor; [|constructor; assumption].
      cbn. intros [H|H]; [apply (Fc cur Hc H)|contradiction].
    + constructor; [intros []|constructor].
  - intros o Ho.
    destruct (enqueue_callStack params this)
      as [E|[E|[(cur & Hc & Hh & E)|E]]]; rewrite E in Ho.
    + apply in_app_or in Ho. destruct Ho as [Ho|[<-|[]]]; auto.
    + destruct Ho as [<-|Ho]; auto.
    + destruct Ho as [<-|[<-|Ho]]; auto.
    + destruct Ho as [<-|[]]; auto.
  - assumption.
Qed.

Lemma tidy_display params this :
  tidy this ->
  spread_params (props this) (fields params) = fields params ->
  tidy (display params this).
Proof.
  intros [T1 T2 T3 T4] Fm. unfold display, setHideTimer, clearTimeout.
  destruct (_ && _); constructor; cbn; auto; try discriminate;
    intros cur [= <-]; assumption.
Qed.

Lemma tidy_showNotification R this :
  consistent this -> tidy this -> tidy (showNotification R this).
Proof.
  intros C T. unfold showNotification.
  assert (T' : tidy (set_heap_next (S (heap_next this)) this))
    by (revert T; apply tidy_frame; reflexivity).
  destruct (skipped_as_shown _ _); [assumption|].
  destruct (skipped_as_queued _ _); [assumption|].
  cbn [isShown set_heap_next]. destruct (isShown this) eqn:Hs.
  - apply tidy_enqueue; cbn; auto.
    + apply consistent_alloc, C.
    + apply fresh_not_queued, C.
    + intros cur Hc. pose proof (current_allocated this C cur Hc). lia.
    + apply spread_params_idem.
  - apply tidy_display; [assumption|]. cbn. apply spread_params_idem.
Qed.

(** The fields right after [onHidden] has reset them, with [rest] queued. *)
Lemma onHidden_unfold this :
  onHidden this =
  let this0 :=
    set_currentParams None
      (set_showParams None
         (set_isHiding false
            (set_isShown false (call (showParams_get Types.onHidden this) this)))) in
  match callStack this with
  | nextNotification :: rest =>
      showNotification (fields nextNotification) (set_callStack rest this0)
  | [] =>
      set_state {| state_id := None;
                   state_title := state_title (state this);
                   state_description := state_description (state this);
                   state_swipeEnabled := state_swipeEnabled (state this) |} this0
  end.
Proof.
  unfold onHidden. rewrite call_log. cbn. destruct (callStack this); reflexivity.
Qed.

Lemma tidy_onHidden this :
  consistent this -> tidy this -> tidy (onHidden this).
Proof.
  intros [C1 C2 C3 C4] [T1 T2 T3 T4]. rewrite onHidden_unfold. cbv zeta.
  rewrite call_log.
  destruct (callStack this) as [|next rest] eqn:E.
  - constructor; cbn; auto; try discriminate; rewrite E; auto.
  - apply tidy_showNotification.
    + constructor; cbn; try discriminate. intros o Ho. apply C1. right. exact Ho.
    + constructor; cbn; auto; try discriminate.
      * cbn in T2. inversion T2; assumption.
      * intros o Ho. apply T3. right. exact Ho.
Qed.

Lemma tidy_constructor props0 : tidy (constructor props0).
Proof.
  constructor; cbn; auto; try discriminate; [constructor|intros o []].
Qed.

Lemma kept_addresses_distinct (keep : Object -> bool) (q : list Object) :
  NoDup (map addr q) -> NoDup (map addr (filter keep q)).
Proof.
  induction q as [|o q IH]; cbn; intros N; [constructor|].
  inversion N as [|a q' Fresh N']; subst.
  destruct (keep o); cbn; [constructor|]; auto.
  intros H. apply Fresh. apply in_map_iff in H. destruct H as (z & Ez & Hz).
  apply filter_In in Hz. apply in_map_iff. exists z. tauto.
Qed.

Lemma tidy_step e this : consistent this -> tidy this -> tidy (step e this).
Proof.
  intros C T. destruct e; cbn.
  - apply tidy_showNotification; assumption.
  - apply tidy_hideNotification, T.
  - unfold hideNotificationById. destruct (_ && _);
      [apply tidy_hideNotification|]; exact T.
  - unfold clearQueue.
    assert (T0 : tidy (set_callStack [] this)).
    { destruct T as [T1 T2 T3 T4]. constructor; cbn; auto;
        [constructor|intros o []]. }
    destruct (truthy_bool _); [apply tidy_hideNotification|]; exact T0.
  - unfold clearNotificationById.
    match goal with |- context [set_callStack ?q this] =>
      assert (T0 : tidy (set_callStack q this)) end.
    { destruct T as [T1 T2 T3 T4]. constructor; cbn; auto.
      - apply kept_addresses_distinct, T2.
      - intros o Ho. apply filter_In in Ho. apply T3, Ho. }
    destruct (nullish _ true); [|exact T0].
    unfold hideNotificationById. destruct (_ && _);
      [apply tidy_hideNotification|]; exact T0.
  - destruct (hideTimer this); [|exact T].
    apply tidy_hideNotification. revert T. apply tidy_frame; reflexivity.
  - destruct (nth_error (animations this) k) as [a|]; [|exact T].
    assert (T0 : tidy (set_animations (remove_nth k (animations this)) this))
      by (revert T; apply tidy_frame; reflexivity).
    assert (C0 : consistent (set_animations (remove_nth k (animations this)) this))
      by (destruct C as [H1 H2 H3 H4]; constructor; assumption).
    destruct (onEnd a) as [|cb|[|]]; cbn.
    + exact T0.
    + rewrite call_log. generalize (tidy_onHidden _ C0 T0).
      apply tidy_frame; reflexivity.
    + apply tidy_onHidden; assumption.
    + exact T0.
  - unfold onHandlerStateChange.
    match goal with |- context [if State_eqb ?s ACTIVE then clearTimeout this else this] =>
      assert (T0 : tidy (if State_eqb s ACTIVE then clearTimeout this else this))
    end.
    { destruct (State_eqb _ _); [|exact T]. revert T. apply tidy_frame; reflexivity. }
    destruct (negb _); [exact T0|].
    match goal with |- context [setHideTimer ?t] =>
      assert (T1 : tidy (setHideTimer t)) end.
    { unfold setHideTimer, clearTimeout. revert T0.
      destruct (_ && _); apply tidy_frame; reflexivity. }
    destruct (isSwipedOut _ _).
    + unfold onStartHiding. rewrite call_log. revert T1.
      apply tidy_frame; reflexivity.
    + revert T1. apply tidy_frame; reflexivity.
  - unfold onPress.
    assert (T0 : tidy (call (showParams_get Types.onPress this) this))
      by (rewrite call_log; revert T; apply tidy_frame; reflexivity).
    destruct (showParams_get hideOnPress _) as [[|]|];
      [apply tidy_hideNotification| |apply tidy_hideNotification]; exact T0.
  - revert T. apply tidy_frame; reflexivity.
Qed.

Lemma reachable_tidy this : reachable this -> consistent this /\ tidy this.
Proof.
  intros (props0 & es & ->).
  generalize (consistent_constructor props0) (tidy_constructor props0).
  generalize (constructor props0).
  induction es as [|e es IH]; intros this C T; cbn; [split; assumption|].
  apply IH; [apply consistent_step|apply tidy_step]; assumption.
Qed.

(* ================================================================== *)
(** ** Shown and idle *)

(** X2.  In every reachable state no request object is in the queue twice,
    although ['immediateMove'] and ['immediateMoveOnlyStrong'] put the
    displayed object back. *)
Theorem queue_has_no_duplicate_object (this : NotifierRoot) :
  reachable this -> NoDup (map addr (callStack this)).
Proof.
  intros R. apply reachable_tidy in R. apply (queue_distinct this), R.
Qed.

Lemma queue_has_no_duplicate_object_witness :
  NoDup (map addr (callStack
     (run [ShowNotification (request "b" (Val "immediateMove"));
           ShowNotification (request "c" (Val "immediateMove"))] A_shown))).
Proof.
  apply queue_has_no_duplicate_object.
  exists empty_params,
    [ShowNotification (request "a" Absent);
     ShowNotification (request "b" (Val "immediateMove"));
     ShowNotification (request "c" (Val "immediateMove"))].
  vm_compute. reflexivity.
Defined.

(* ================================================================== *)
(** ** The second skip rule *)

Lemma strict_eq_string_Some a b :
  strict_eq_string a (Some b) = true <-> a = Some b.
Proof. apply case_label_true. Qed.

Lemma skipped_as_queued_true params this i :
  get (skipAlreadyInQueue params) = Some true ->
  get (id params) = Some i ->
  i <> EmptyString ->
  (skipped_as_queued params this = true <-> id_queued i this).
Proof.
  intros Sk Ip Ne. unfold skipped_as_queued, id_queued. rewrite Sk, Ip. cbn.
  apply String.eqb_neq in Ne. rewrite Ne. cbn.
  destruct (find _ (callStack this)) as [o|] eqn:F.
  - apply find_some in F. destruct F as [Ho Eo].
    apply strict_eq_string_Some in Eo. split; [|reflexivity].
    intros _. exists o. auto.
  - split; [discriminate|]. intros (o & Ho & Eo).
    apply (find_none _ _ F) in Ho. cbn in Ho.
    apply strict_eq_string_Some in Eo. congruence.
Qed.

(** X3.  A request with [skipAlreadyInQueue] set and a non-empty [id] is
    dropped exactly when a queued request has the same [id], whether a
    notification is displayed or not: then nothing changes (only the address
    of the discarded [params] object is used up); when no queued request has
    that [id], the rule does not apply. *)
Theorem skipAlreadyInQueue_drops_request (this : NotifierRoot)
  (R : ShowNotificationParams) (i : string) :
  get (skipAlreadyInQueue (fields (merged R this))) = Some true ->
  get (id (fields (merged R this))) = Some i ->
  i <> EmptyString ->
  (id_queued i this ->
     showNotification R this = set_heap_next (S (heap_next this)) this)
  /\ (~ id_queued i this ->
        skipped_as_queued (fields (merged R this)) this = false).
Proof.
  intros Sk Ip Ne.
  pose proof (skipped_as_queued_true _ this i Sk Ip Ne) as Q.
  split.
  - intros Hq. apply Q in Hq. unfold showNotification.
    change (skipped_as_queued (fields (merged R this))
              (set_heap_next (S (heap_next this)) this))
      with (skipped_as_queued (fields (merged R this)) this).
    rewrite Hq. destruct (skipped_as_shown _ _); reflexivity.
  - intros Hn. destruct (skipped_as_queued _ _); [|reflexivity].
    exfalso. apply Hn, Q. reflexivity.
Qed.

Lemma skipAlreadyInQueue_drops_request_witness :
  showNotification (with_skipAlreadyInQueue (request "x" (Val "next"))) A_shown_X_queued
  = set_heap_next (S (heap_next A_shown_X_queued)) A_shown_X_queued.
Proof.
  apply (proj1 (skipAlreadyInQueue_drops_request A_shown_X_queued
                  (with_skipAlreadyInQueue (request "x" (Val "next"))) "x"
                  eq_refl eq_refl ltac:(discriminate))).
  exists {| addr := 1; fields := request "x" (Val "standby") |}.
  split; [vm_compute; left; reflexivity|reflexivity].
Defined.

(* ================================================================== *)
(** ** ['immediate'] *)

Lemma enqueue_immediate params this :
  get (queueMode (fields params)) = Some "immediate" ->
  enqueue params this =
  hideNotification None (set_callStack (params :: callStack this) this).
Proof. intros M. unfold enqueue. rewrite M. reflexivity. Qed.

(** X4.  While a notification [A] is displayed, [showNotification(B)] with
    ['immediate'] (and [B] not dropped by a skip rule) puts [B] at the front
    of the queue and runs [hideNotification]; the displayed request stays
    displayed while it hides.  When no hide was in progress, the hide path
    starts now and [A] is in the queue after no later sequence of events. *)
Theorem show_immediate (this : NotifierRoot) (A : Object)
  (B : ShowNotificationParams) :
  reachable this ->
  isShown this = true ->
  currentParams this = Some A ->
  skipped_as_shown (fields (merged B this)) this = false ->
  skipped_as_queued (fields (merged B this)) this = false ->
  get (queueMode (fields (merged B this))) = Some "immediate" ->
  callStack (showNotification B this) = merged B this :: callStack this
  /\ currentParams (showNotification B this) = Some A
  /\ isHiding (showNotification B this) = true
  /\ (isHiding this = false ->
        hide_started None this (showNotification B this)
        /\ forall es, ~ queued A (run es (showNotification B this))).
Proof.
  intros R Hs Hc K1 K2 M.
  rewrite (showNotification_enqueue B this Hs K1 K2), (enqueue_immediate _ _ M).
  set (this1 := set_callStack _ _).
  pose proof (hideNotification_core None this1) as (E1 & E2 & E3 & _).
  assert (H : isHiding (hideNotification None this1) = true)
    by (apply hideNotification_shown; exact Hs).
  rewrite E1, E3.
  refine (conj eq_refl (conj Hc (conj H _))).
  intros Hh. split.
  - apply hide_started_frame with (this0 := this1); auto.
    apply hideNotification_started; auto.
  - intros es. apply (discarded_run (addr A)).
    apply reachable_consistent in R.
    pose proof (current_allocated this R A Hc) as Al.
    constructor; rewrite ?E1, ?E2, ?E3; cbn; auto.
    intros [E|Hq]; [lia|].
    pose proof (current_queued_hiding this R A Hc Hq). congruence.
Qed.

Lemma show_immediate_witness :
  callStack (showNotification (request "b" (Val "immediate")) A_shown_X_queued)
  = merged (request "b" (Val "immediate")) A_shown_X_queued
      :: callStack A_shown_X_queued.
Proof.
  assert (R : reachable A_shown_X_queued).
  { exists empty_params,
      [ShowNotification (request "a" Absent);
       ShowNotification (request "x" (Val "standby"))].
    vm_compute. reflexivity. }
  assert (Hs : isShown A_shown_X_queued = true) by (vm_compute; reflexivity).
  assert (Hc : currentParams A_shown_X_queued = Some object_A)
    by (vm_compute; reflexivity).
  assert (K1 : skipped_as_shown
                 (fields (merged (request "b" (Val "immediate")) A_shown_X_queued))
                 A_shown_X_queued = false) by (vm_compute; reflexivity).
  assert (K2 : skipped_as_queued
                 (fields (merged (request "b" (Val "immediate")) A_shown_X_queued))
                 A_shown_X_queued = false) by (vm_compute; reflexivity).
  assert (M : get (queueMode (fields (merged (request "b" (Val "immediate"))
                                             A_shown_X_queued)))
              = Some "immediate") by (vm_compute; reflexivity).
  exact (proj1 (show_immediate A_shown_X_queued object_A
                  (request "b" (Val "immediate")) R Hs Hc K1 K2 M)).
Defined.

(* ================================================================== *)
(** ** Clearing *)

Lemma set_callStack_same this : set_callStack (callStack this) this = this.
Proof. destruct this; reflexivity. Qed.

Lemma filter_idem {A} (p : A -> bool) (l : list A) :
  filter p (filter p l) = filter p l.
Proof.
  induction l as [|x l IH]; cbn; [reflexivity|].
  destruct (p x) eqn:E; cbn; rewrite ?E, IH; reflexivity.
Qed.

Lemma hideNotificationById_core id0 cb this :
  callStack (hideNotificationById id0 cb this) = callStack this.
Proof.
  unfold hideNotificationById. destruct (_ && _); [|reflexivity].
  apply hideNotification_core.
Qed.

Lemma hideNotificationById_idem id0 cb cb' this :
  hideNotificationById id0 cb' (hideNotificationById id0 cb this)
  = hideNotificationById id0 cb this.
Proof.
  unfold hideNotificationById.
  destruct (isShown this && negb (isHiding this)
            && strict_eq_string (state_id (state this)) (Some id0)) eqn:G.
  - apply andb_prop in G. destruct G as [G _].
    apply andb_prop in G. destruct G as [Hs _].
    rewrite (hideNotification_shown cb this Hs). cbn.
    rewrite andb_false_r. reflexivity.
  - rewrite G. reflexivity.
Qed.

(** X5.  [clearNotificationById(id)] removes every queued request with that
    [id], whether [hideDisplayedNotification] is set or not and whether the
    displayed notification gets hidden or not, and keeps the others (among
    them every request without [id]) in their order.  Calling it a second
    time changes nothing more. *)
Theorem clearNotificationById_removes_id (this : NotifierRoot) (id0 : string)
  (hideDisplayedNotification : option bool) :
  ~ id_queued id0 (clearNotificationById id0 hideDisplayedNotification this)
  /\ (forall o, In o (callStack (clearNotificationById id0 hideDisplayedNotification this))
                <-> In o (callStack this) /\ get (id (fields o)) <> Some id0)
  /\ callStack (clearNotificationById id0 hideDisplayedNotification this)
     = filter (fun o => negb (strict_eq_string (get (id (fields o))) (Some id0)))
              (callStack this)
  /\ clearNotificationById id0 hideDisplayedNotification
       (clearNotificationById id0 hideDisplayedNotification this)
     = clearNotificationById id0 hideDisplayedNotification this.
Proof.
  set (keep := fun params : Object =>
                 negb (strict_eq_string (get (id (fields params))) (Some id0))).
  assert (Q : forall t,
             callStack (clearNotificationById id0 hideDisplayedNotification t)
             = filter keep (callStack t)).
  { intros t. unfold clearNotificationById. fold keep.
    destruct (nullish _ true); [|reflexivity].
    rewrite hideNotificationById_core. reflexivity. }
  assert (K : forall o, keep o = true <-> get (id (fields o)) <> Some id0).
  { intros o. unfold keep. rewrite negb_true_iff.
    rewrite <- strict_eq_string_Some.
    destruct (strict_eq_string _ _); split; congruence. }
  refine (conj _ (conj _ (conj _ _))).
  - intros (o & Ho & Eo). rewrite Q in Ho. apply filter_In in Ho.
    destruct Ho as [_ Ho]. apply K in Ho. contradiction.
  - intros o. rewrite Q, filter_In, K. reflexivity.
  - apply Q.
  - unfold clearNotificationById at 1. fold keep.
    rewrite Q, filter_idem, <- Q, set_callStack_same.
    destruct (nullish _ true) eqn:H; [|reflexivity].
    unfold clearNotificationById. rewrite H. apply hideNotificationById_idem.
Qed.

Lemma clearNotificationById_removes_id_witness :
  ~ id_queued "x" (clearNotificationById "x" None A_shown_XY_queued)
  /\ callStack (clearNotificationById "x" None A_shown_XY_queued)
     = [{| addr := 2; fields := request "y" (Val "standby") |}].
Proof.
  split.
  - exact (proj1 (clearNotificationById_removes_id A_shown_XY_queued "x" None)).
  - rewrite (proj1 (proj2 (proj2 (clearNotificationById_removes_id
                                    A_shown_XY_queued "x" None)))).
    vm_compute. reflexivity.
Defined.

(* ================================================================== *)
(** ** The end of an exit animation *)

Lemma nth_error_last {A} (l : list A) (a : A) :
  nth_error (l ++ [a]) (List.length l) = Some a.
Proof. induction l; cbn; auto. Qed.

Lemma remove_nth_last {A} (l : list A) (a : A) :
  remove_nth (List.length l) (l ++ [a]) = l.
Proof. induction l as [|x l IH]; cbn; [reflexivity|]. rewrite IH. reflexivity. Qed.

(** The end of the animation that a starting hide appended. *)
Lemma exit_animation_end cb this this1 :
  animations this1 = animations this ++ [exit_animation cb this] ->
  step (AnimationEnd (List.length (animations this))) this1
  = call cb (onHidden (set_animations (animations this) this1)).
Proof.
  intros E. cbn. rewrite E, nth_error_last, remove_nth_last. reflexivity.
Qed.

Lemma onHidden_empty this :
  callStack this = [] -> idle (onHidden this).
Proof.
  intros E. rewrite onHidden_unfold, E. cbv zeta. rewrite call_log.
  unfold idle. cbn. rewrite E. tauto.
Qed.

Lemma idle_call f this : idle this -> idle (call f this).
Proof. rewrite call_log. exact (fun H => H). Qed.

(** X6.  [clearQueue] empties the queue and, without a truthy
    [hideDisplayedNotification], changes nothing else.  With it, on a
    displayed notification that is not hiding, the hide path starts, and when
    that exit animation ends the component is idle: nothing shown, queue
    empty, no [state.id]. *)
Theorem clearQueue_empties (this : NotifierRoot) :
  clearQueue None this = set_callStack [] this
  /\ clearQueue (Some false) this = set_callStack [] this
  /\ (forall h, callStack (clearQueue h this) = [])
  /\ (isShown this = true -> isHiding this = false ->
        hide_started None this (clearQueue (Some true) this)
        /\ idle (step (AnimationEnd (List.length (animations this)))
                      (clearQueue (Some true) this))).
Proof.
  refine (conj eq_refl (conj eq_refl (conj _ _))).
  - intros h. unfold clearQueue. destruct (truthy_bool h); [|reflexivity].
    apply hideNotification_core.
  - intros Hs Hh. unfold clearQueue. cbn [truthy_bool].
    set (this1 := set_callStack [] this).
    assert (St : hide_started None this (hideNotification None this1)).
    { apply hide_started_frame with (this0 := this1); auto.
      apply hideNotification_started; auto. }
    split; [exact St|].
    rewrite (exit_animation_end None this _ (proj1 St)).
    apply idle_call, onHidden_empty. cbn.
    apply hideNotification_core.
Qed.

Lemma clearQueue_empties_witness :
  idle (step (AnimationEnd (List.length (animations A_shown_XY_queued)))
             (clearQueue (Some true) A_shown_XY_queued)).
Proof.
  apply (proj2 (proj2 (proj2 (clearQueue_empties A_shown_XY_queued)))).
  - vm_compute. reflexivity.
  - vm_compute. reflexivity.
Defined.

Lemma skipped_as_queued_frame params this this' :
  callStack this' = callStack this ->
  skipped_as_queued params this' = skipped_as_queued params this.
Proof. intros E. unfold skipped_as_queued. rewrite E. reflexivity. Qed.

(** [onHidden] with a request at the front of the queue, in terms of the
    queue that is left. *)
Lemma onHidden_front this next rest :
  tidy this ->
  callStack this = next :: rest ->
  let shown := {| addr := heap_next this; fields := fields next |} in
  (skipped_as_queued (fields next) (set_callStack rest this) = false ->
     currentParams (onHidden this) = Some shown
     /\ showParams (onHidden this) = Some (base (fields next))
     /\ state_id (state (onHidden this)) = get (id (fields next))
     /\ callStack (onHidden this) = rest
     /\ isShown (onHidden this) = true
     /\ isHiding (onHidden this) = false
     /\ log (onHidden this)
        = log this ++ invoked (showParams_get Types.onHidden this)
                   ++ [AnimatedTimingStart
                         {| toValue := MAX_TRANSLATE_Y;
                            anim_easing :=
                              nullish_opt (get (showEasing (base (fields next))))
                                          (get (easing (base (fields next))));
                            anim_duration :=
                              nullish
                                (nullish_opt
                                   (get (showAnimationDuration (base (fields next))))
                                   (get (animationDuration (base (fields next)))))
                                DEFAULT_ANIMATION_DURATION;
                            onEnd := NoCallback |}])
  /\ (skipped_as_queued (fields next) (set_callStack rest this) = true ->
        currentParams (onHidden this) = None
        /\ isShown (onHidden this) = false
        /\ isHiding (onHidden this) = false
        /\ callStack (onHidden this) = rest
        /\ rest <> []).
Proof.
  intros T E shown. rewrite onHidden_unfold, E. cbv zeta. rewrite call_log.
  set (this0 := set_callStack rest (set_currentParams _ _)).
  assert (F : spread_params (props this0) (fields next) = fields next).
  { apply (queue_merged this T). rewrite E. left. reflexivity. }
  assert (Sk : forall p, skipped_as_queued p (set_heap_next (S (heap_next this0)) this0)
                         = skipped_as_queued p (set_callStack rest this))
    by (intros p; apply skipped_as_queued_frame; reflexivity).
  unfold showNotification. cbv zeta. unfold merged. cbn [fields]. rewrite F, Sk.
  assert (Sh : skipped_as_shown (fields next)
                 (set_heap_next (S (heap_next this0)) this0) = false).
  { unfold skipped_as_shown. cbn. rewrite andb_false_r. reflexivity. }
  rewrite Sh. cbn [isShown set_heap_next this0 set_callStack set_currentParams
                     set_showParams set_isHiding set_isShown set_log].
  split; intros K; rewrite K.
  - unfold display, setHideTimer, clearTimeout, enter_animation, showParams_get. cbn.
    destruct (_ && _); cbn; rewrite <- app_assoc; tauto.
  - cbn. refine (conj eq_refl (conj eq_refl (conj eq_refl (conj eq_refl _)))).
    intros ->. unfold skipped_as_queued in K. cbn in K.
    rewrite !andb_false_r in K. discriminate.
Qed.


(* ================================================================== *)
(** ** Hiding by id, pressing, dragging *)

(** X8.  On a displayed notification that is not hiding,
    [hideNotificationById(id)] is [hideNotification] when [id] is
    [this.state.id] and changes nothing otherwise, in particular when
    [this.state.id] is [undefined]; it never touches the queue. *)
Theorem hideNotificationById_matches_state_id (this : NotifierRoot)
  (id0 : string) (callback : option Callback) :
  isShown this = true ->
  isHiding this = false ->
  (state_id (state this) = Some id0 ->
     hideNotificationById id0 callback this = hideNotification callback this
     /\ Stopping.hideNotificationById id0 callback this
        = Stopping.hideNotification callback this
     /\ hide_started callback this (hideNotificationById id0 callback this))
  /\ (state_id (state this) <> Some id0 ->
        hideNotificationById id0 callback this = this
        /\ Stopping.hideNotificationById id0 callback this = this)
  /\ callStack (hideNotificationById id0 callback this) = callStack this.
Proof.
  intros Hs Hh.
  refine (conj _ (conj _ (hideNotificationById_core id0 callback this))).
  - intros Ei.
    assert (E : hideNotificationById id0 callback this = hideNotification callback this).
    { unfold hideNotificationById. rewrite Hs, Hh, Ei. cbn.
      rewrite String.eqb_refl. reflexivity. }
    rewrite E. refine (conj eq_refl (conj _ _)).
    + unfold Stopping.hideNotificationById. rewrite Hs, Hh, Ei. cbn.
      rewrite String.eqb_refl. reflexivity.
    + apply hideNotification_started; assumption.
  - intros Ni. unfold hideNotificationById, Stopping.hideNotificationById.
    rewrite Hs, Hh. cbn.
    destruct (strict_eq_string _ _) eqn:E; [|split; reflexivity].
    apply strict_eq_string_Some in E. contradiction.
Qed.

Lemma hideNotificationById_matches_state_id_witness :
  hideNotificationById "b" None A_shown = A_shown
  /\ hide_started None A_shown (hideNotificationById "a" None A_shown).
Proof.
  assert (Hs : isShown A_shown = true) by (vm_compute; reflexivity).
  assert (Hh : isHiding A_shown = false) by (vm_compute; reflexivity).
  assert (Nb : state_id (state A_shown) <> Some "b") by (vm_compute; discriminate).
  assert (Ea : state_id (state A_shown) = Some "a") by (vm_compute; reflexivity).
  pose proof (hideNotificationById_matches_state_id A_shown "b" None Hs Hh)
    as (_ & Tb & _).
  pose proof (hideNotificationById_matches_state_id A_shown "a" None Hs Hh)
    as (Ta & _).
  exact (conj (proj1 (Tb Nb)) (proj2 (proj2 (Ta Ea)))).
Defined.

(** X9.  A press always calls the [onPress] callback of the displayed
    request, also while the notification hides.  It starts the hide path
    exactly when a notification is shown, no hide is in progress and
    [hideOnPress] is not [false]; in every other case the press changes
    nothing but the effect log. *)
Theorem press_hides_unless_disabled (this : NotifierRoot) :
  let pressed := call (showParams_get Types.onPress this) this in
  log pressed = log this ++ invoked (showParams_get Types.onPress this)
  /\ (isShown this = true -> isHiding this = false ->
      showParams_get hideOnPress this <> Some false ->
        hide_started None pressed (onPress this))
  /\ (isShown this = false \/ isHiding this = true
      \/ showParams_get hideOnPress this = Some false ->
        onPress this = pressed).
Proof.
  cbv zeta. rewrite call_log. refine (conj eq_refl (conj _ _)).
  - intros Hs Hh Hp. unfold onPress. rewrite call_log.
    destruct (showParams_get hideOnPress _) as [[|]|] eqn:E;
      try congruence; apply hideNotification_started; assumption.
  - intros G. unfold onPress. rewrite call_log.
    destruct (showParams_get hideOnPress _) as [[|]|] eqn:E; try reflexivity;
      destruct G as [G|[G|G]]; try discriminate;
      apply hideNotification_guarded; auto.
Qed.

Lemma press_hides_unless_disabled_witness :
  hide_started None (call (showParams_get Types.onPress A_shown) A_shown)
    (onPress A_shown)
  /\ onPress A_hiding = call (showParams_get Types.onPress A_hiding) A_hiding.
Proof.
  split.
  - apply (proj1 (proj2 (press_hides_unless_disabled A_shown)));
      [vm_compute; reflexivity|vm_compute; reflexivity|vm_compute; discriminate].
  - apply (proj2 (proj2 (press_hides_unless_disabled A_hiding))).
    right. left. vm_compute. reflexivity.
Defined.





(* ================================================================== *)
(** ** From the queue to the screen *)

(** The end of an exit animation with a request at the front of the queue. *)
Lemma exit_end_shows_front l cb that this next rest :
  tidy this ->
  callStack this = next :: rest ->
  animations this = l ++ [exit_animation cb that] ->
  skipped_as_queued (fields next) (set_callStack rest this) = false ->
  (exists shown,
      currentParams (step (AnimationEnd (List.length l)) this) = Some shown
      /\ fields shown = fields next)
  /\ callStack (step (AnimationEnd (List.length l)) this) = rest
  /\ isShown (step (AnimationEnd (List.length l)) this) = true
  /\ isHiding (step (AnimationEnd (List.length l)) this) = false.
Proof.
  intros T E An K. cbn [step]. rewrite An, nth_error_last, remove_nth_last.
  cbn [onEnd exit_animation run_EndCallback]. rewrite call_log.
  set (ended := set_animations l this).
  assert (T' : tidy ended) by (revert T; apply tidy_frame; reflexivity).
  destruct (proj1 (onHidden_front ended next rest T' E) K)
    as (H1 & _ & _ & H4 & H5 & H6 & _).
  cbn. refine (conj _ (conj H4 (conj H5 H6))).
  eexists. split; [exact H1|reflexivity].
Qed.

(** X11.  A request shown with ['next'] while a notification is displayed
    (not hiding, the request not dropped by a skip rule) is the one displayed
    once that notification is hidden: after [hideNotification] and the end of
    its exit animation the displayed request has the properties of the new
    request, and the queue is what it was before. *)
Theorem next_is_displayed_after_hide (this : NotifierRoot)
  (B : ShowNotificationParams) (callback : option Callback) :
  reachable this ->
  isShown this = true ->
  isHiding this = false ->
  skipped_as_shown (fields (merged B this)) this = false ->
  skipped_as_queued (fields (merged B this)) this = false ->
  get (queueMode (fields (merged B this))) = Some "next" ->
  (exists shown,
      currentParams
        (run [ShowNotification B; HideNotification callback;
              AnimationEnd (List.length (animations this))] this) = Some shown
      /\ fields shown = fields (merged B this))
  /\ callStack
       (run [ShowNotification B; HideNotification callback;
             AnimationEnd (List.length (animations this))] this) = callStack this
  /\ isShown
       (run [ShowNotification B; HideNotification callback;
             AnimationEnd (List.length (animations this))] this) = true
  /\ isHiding
       (run [ShowNotification B; HideNotification callback;
             AnimationEnd (List.length (animations this))] this) = false.
Proof.
  intros R Hs Hh K1 K2 M. apply reachable_tidy in R. destruct R as [C T].
  cbn [run].
  pose proof (tidy_step (HideNotification callback) _
                (consistent_step (ShowNotification B) _ C)
                (tidy_step (ShowNotification B) _ C T)) as T2.
  cbn [step] in T2 |- *.
  assert (E1 : showNotification B this
               = set_callStack (merged B this :: callStack this)
                   (set_heap_next (S (heap_next this)) this))
    by (rewrite (showNotification_enqueue B this Hs K1 K2), (enqueue_next _ _ M);
        reflexivity).
  rewrite E1 in *.
  set (this1 := set_callStack _ _) in *.
  pose proof (hideNotification_started callback this1 Hs Hh) as (An & _).
  pose proof (hideNotification_core callback this1) as (Q & _).
  change (animations this1) with (animations this) in An.
  apply (exit_end_shows_front (animations this) callback this1
           (hideNotification callback this1) (merged B this) (callStack this));
    auto.
Qed.

Lemma next_is_displayed_after_hide_witness :
  callStack (run [ShowNotification (request "b" (Val "next")); HideNotification None;
                  AnimationEnd (List.length (animations A_shown_X_queued))]
                 A_shown_X_queued)
  = callStack A_shown_X_queued.
Proof.
  assert (R : reachable A_shown_X_queued).
  { exists empty_params,
      [ShowNotification (request "a" Absent);
       ShowNotification (request "x" (Val "standby"))].
    vm_compute. reflexivity. }
  assert (Hs : isShown A_shown_X_queued = true) by (vm_compute; reflexivity).
  assert (Hh : isHiding A_shown_X_queued = false) by (vm_compute; reflexivity).
  assert (K1 : skipped_as_shown
                 (fields (merged (request "b" (Val "next")) A_shown_X_queued))
                 A_shown_X_queued = false) by (vm_compute; reflexivity).
  assert (K2 : skipped_as_queued
                 (fields (merged (request "b" (Val "next")) A_shown_X_queued))
                 A_shown_X_queued = false) by (vm_compute; reflexivity).
  assert (M : get (queueMode (fields (merged (request "b" (Val "next"))
                                             A_shown_X_queued)))
              = Some "next") by (vm_compute; reflexivity).
  exact (proj1 (proj2 (next_is_displayed_after_hide A_shown_X_queued
                         (request "b" (Val "next")) None R Hs Hh K1 K2 M))).
Defined.

(** X12.  A request shown with ['reset'] (or any [queueMode] that is no
    [case] label) while a notification is displayed and not hiding replaces
    it: when the exit animation that [showNotification] started ends, the new
    request is the displayed one and the queue is empty. *)
Theorem reset_is_displayed_after_exit (this : NotifierRoot)
  (B : ShowNotificationParams) :
  reachable this ->
  isShown this = true ->
  isHiding this = false ->
  skipped_as_shown (fields (merged B this)) this = false ->
  skipped_as_queued (fields (merged B this)) this = false ->
  default_mode (get (queueMode (fields (merged B this)))) ->
  (exists shown,
      currentParams
        (run [ShowNotification B; AnimationEnd (List.length (animations this))] this)
      = Some shown
      /\ fields shown = fields (merged B this))
  /\ callStack
       (run [ShowNotification B; AnimationEnd (List.length (animations this))] this)
     = []
  /\ isShown
       (run [ShowNotification B; AnimationEnd (List.length (animations this))] this)
     = true
  /\ isHiding
       (run [ShowNotification B; AnimationEnd (List.length (animations this))] this)
     = false.
Proof.
  intros R Hs Hh K1 K2 M. apply reachable_tidy in R. destruct R as [C T].
  cbn [run].
  pose proof (tidy_step (ShowNotification B) _ C T) as T1.
  cbn [step] in T1 |- *.
  rewrite (showNotification_enqueue B this Hs K1 K2), (enqueue_default _ _ M) in *.
  set (this1 := set_callStack _ _) in *.
  pose proof (hideNotification_started None this1 Hs Hh) as (An & _).
  pose proof (hideNotification_core None this1) as (Q & _).
  change (animations this1) with (animations this) in An.
  apply (exit_end_shows_front (animations this) None this1
           (hideNotification None this1) (merged B this) []); auto.
  unfold skipped_as_queued. cbn. rewrite !andb_false_r. reflexivity.
Qed.

Lemma reset_is_displayed_after_exit_witness :
  callStack (run [ShowNotification (request "b" (Val "reset"));
                  AnimationEnd (List.length (animations A_shown_XY_queued))]
                 A_shown_XY_queued) = [].
Proof.
  assert (R : reachable A_shown_XY_queued).
  { exists empty_params,
      [ShowNotification (request "a" Absent);
       ShowNotification (request "x" (Val "standby"));
       ShowNotification (request "y" (Val "standby"))].
    vm_compute. reflexivity. }
  assert (Hs : isShown A_shown_XY_queued = true) by (vm_compute; reflexivity).
  assert (Hh : isHiding A_shown_XY_queued = false) by (vm_compute; reflexivity).
  assert (K1 : skipped_as_shown
                 (fields (merged (request "b" (Val "reset")) A_shown_XY_queued))
                 A_shown_XY_queued = false) by (vm_compute; reflexivity).
  assert (K2 : skipped_as_queued
                 (fields (merged (request "b" (Val "reset")) A_shown_XY_queued))
                 A_shown_XY_queued = false) by (vm_compute; reflexivity).
  assert (M : default_mode
                (get (queueMode (fields (merged (request "b" (Val "reset"))
                                                A_shown_XY_queued))))).
  { vm_compute. repeat split; discriminate. }
  exact (proj1 (proj2 (reset_is_displayed_after_exit A_shown_XY_queued
                         (request "b" (Val "reset")) R Hs Hh K1 K2 M))).
Defined.


(* ================================================================== *)
(** ** The stopping driver: fuel, and what stopping does *)

Lemma set_animations_nil this : animations this = [] -> set_animations [] this = this.
Proof. destruct this; cbn; intros ->; reflexivity. Qed.

Lemma stopAnimation_quiet n this :
  animations this = [] -> Stopping.stopAnimation n this = this.
Proof. intros E. destruct n; cbn; rewrite E; reflexivity. Qed.

Lemma animations_setHideTimer this : animations (setHideTimer this) = animations this.
Proof. unfold setHideTimer, clearTimeout. destruct (_ && _); reflexivity. Qed.

(** Inside an end callback nothing runs, so the stopping function that
    [onHidden] is given does not matter. *)
Lemma onHidden_with_quiet (stop : NotifierRoot -> NotifierRoot) this :
  (forall x, animations x = [] -> stop x = x) ->
  animations this = [] ->
  Stopping.onHidden_with stop this = Stopping.onHidden_with (fun x => x) this.
Proof.
  intros Q E. unfold Stopping.onHidden_with. rewrite call_log.
  rewrite Q by exact E. cbn [callStack set_currentParams set_showParams
                               set_isHiding set_isShown set_log].
  destruct (callStack this) as [|next rest]; [reflexivity|].
  unfold Stopping.showNotification_with.
  destruct (skipped_as_shown _ _); [reflexivity|].
  destruct (skipped_as_queued _ _); [reflexivity|].
  cbn [isShown set_heap_next set_callStack set_currentParams set_showParams
         set_isHiding set_isShown set_log].
  unfold Stopping.display_with, Stopping.timing_start_with.
  rewrite !Q; [reflexivity| |]; rewrite ?Q; rewrite ?animations_setHideTimer;
    try exact E; rewrite ?animations_setHideTimer; exact E.
Qed.

Lemma run_EndCallback_with_quiet (stop : NotifierRoot -> NotifierRoot) c this :
  (forall x, animations x = [] -> stop x = x) ->
  animations this = [] ->
  Stopping.run_EndCallback_with stop c this
  = Stopping.run_EndCallback_with (fun x => x) c this.
Proof.
  intros Q E. destruct c as [|cb|[|]]; cbn; rewrite ?(onHidden_with_quiet stop this Q E);
    reflexivity.
Qed.

(** Enough fuel: every amount of fuel above zero stops the running animation
    and runs its end callback to its end, with the same result. *)
Lemma stopAnimation_fuel n this :
  Stopping.stopAnimation (S n) this = Stopping.stop this.
Proof.
  unfold Stopping.stop. cbn. destruct (animations this) as [|a l]; [reflexivity|].
  rewrite (run_EndCallback_with_quiet (Stopping.stopAnimation n));
    [|intros x; apply stopAnimation_quiet|reflexivity].
  rewrite (run_EndCallback_with_quiet (Stopping.stopAnimation 0));
    [|intros x; apply stopAnimation_quiet|reflexivity].
  reflexivity.
Qed.

(** Stopping a harmless animation only forgets it. *)
Lemma stop_harmless this :
  harmless this -> Stopping.stop this = set_animations [] this.
Proof.
  intros H. unfold Stopping.stop. cbn.
  destruct (animations this) as [|a l] eqn:E.
  - symmetry. apply set_animations_nil, E.
  - destruct (H a) as [-> | ->]; [rewrite E; left; reflexivity| |]; reflexivity.
Qed.

Lemma calls_app l l' : calls (l ++ l') = calls l ++ calls l'.
Proof.
  induction l as [|[f|a] l IH]; cbn; rewrite ?IH; reflexivity.
Qed.

(* ================================================================== *)
(** ** A drag that ends while the exit animation runs *)

(** C4 (the code at the failing input, on the stopping driver).  [A] is
    displayed, [B] waits in the queue, and [hideNotification] has started the
    exit animation of [A], so [isHiding] is true.  [onHandlerStateChange] has
    no guard: the end of a drag of 21 pixels upwards starts the animation to
    the hidden position with [onHidden] as its end and runs [onStartHiding]
    again.  Starting that animation stops the exit animation, whose end
    displays [B]; the new hide sequence therefore runs against [B]:
    [onStartHiding] of [B] is called although nothing asked to hide [B], and
    the end of the swipe animation hides [B]. *)
Theorem swipe_while_hiding_hides_next :
  isShown A_hiding_B_queued = true
  /\ isHiding A_hiding_B_queued = true
  /\ option_map fields (currentParams A_hiding_B_queued) = Some request_A
  /\ map fields (callStack A_hiding_B_queued) = [request_B]
  /\ map onEnd (animations A_hiding_B_queued) = [HideEnd None]
  /\ calls (log A_hiding_B_queued) = ["startHidingA"]
  /\ calls (log (Stopping.step (Stopping.HandlerStateChange (drag_end (-21 # 1)))
                               A_hiding_B_queued))
     = ["startHidingA"; "hiddenA"; "startHidingB"]
  /\ started (log (Stopping.step (Stopping.HandlerStateChange (drag_end (-21 # 1)))
                                 A_hiding_B_queued))
     = [NoCallback; HideEnd None; NoCallback; SwipeEnd true]
  /\ option_map fields
       (currentParams (Stopping.step (Stopping.HandlerStateChange (drag_end (-21 # 1)))
                                     A_hiding_B_queued))
     = Some request_B
  /\ isHiding (Stopping.step (Stopping.HandlerStateChange (drag_end (-21 # 1)))
                             A_hiding_B_queued) = true
  /\ hideTimer (Stopping.step (Stopping.HandlerStateChange (drag_end (-21 # 1)))
                              A_hiding_B_queued) = None
  /\ map onEnd
       (animations (Stopping.step (Stopping.HandlerStateChange (drag_end (-21 # 1)))
                                  A_hiding_B_queued))
     = [SwipeEnd true]
  /\ calls (log (Stopping.run [Stopping.HandlerStateChange (drag_end (-21 # 1));
                               Stopping.AnimationEnd] A_hiding_B_queued))
     = ["startHidingA"; "hiddenA"; "startHidingB"; "hiddenB"]
  /\ isShown (Stopping.run [Stopping.HandlerStateChange (drag_end (-21 # 1));
                            Stopping.AnimationEnd] A_hiding_B_queued) = false.
Proof. vm_compute. repeat split; reflexivity. Qed.

(* ================================================================== *)
(** ** [isShown] and the fields, on the stopping driver *)

Lemma agrees_frame this this' :
  isShown this' = isShown this ->
  currentParams this' = currentParams this ->
  showParams this' = showParams this ->
  display_agrees this -> display_agrees this'.
Proof. unfold display_agrees. intros -> -> ->. exact (fun H => H). Qed.

Lemma agrees_setHideTimer this : display_agrees this -> display_agrees (setHideTimer this).
Proof.
  apply agrees_frame; unfold setHideTimer, clearTimeout; destruct (_ && _); reflexivity.
Qed.

Lemma agrees_onStartHiding this : display_agrees this -> display_agrees (onStartHiding this).
Proof. unfold onStartHiding. rewrite call_log. apply agrees_frame; reflexivity. Qed.

Lemma agrees_call f this : display_agrees this -> display_agrees (call f this).
Proof. rewrite call_log. apply agrees_frame; reflexivity. Qed.

Lemma agrees_showCurrentLater b q this :
  display_agrees this -> display_agrees (set_callStack q (showCurrentLater b this)).
Proof. rewrite showCurrentLater_frame. apply agrees_frame; reflexivity. Qed.

Section WithStop.

Variable stop : NotifierRoot -> NotifierRoot.
Hypothesis stop_agrees : forall x, display_agrees x -> display_agrees (stop x).

Lemma agrees_timing_start_with a this :
  display_agrees this -> display_agrees (Stopping.timing_start_with stop a this).
Proof.
  intros H. unfold Stopping.timing_start_with.
  generalize (stop_agrees this H). apply agrees_frame; reflexivity.
Qed.

Lemma agrees_hideNotification_with cb this :
  display_agrees this -> display_agrees (Stopping.hideNotification_with stop cb this).
Proof.
  intros H. unfold Stopping.hideNotification_with.
  destruct (_ || _); [exact H|].
  apply agrees_onStartHiding, agrees_timing_start_with, H.
Qed.

Lemma agrees_enqueue_with params this :
  display_agrees this -> display_agrees (Stopping.enqueue_with stop params this).
Proof.
  intros H. unfold Stopping.enqueue_with.
  repeat match goal with
         | |- context [if case_label ?m ?s then _ else _] =>
             destruct (case_label m s)
         end;
    try apply agrees_hideNotification_with;
    try apply agrees_showCurrentLater;
    try (revert H; apply agrees_frame; reflexivity); exact H.
Qed.

Lemma agrees_display_with params this :
  display_agrees (Stopping.display_with stop params this).
Proof.
  unfold Stopping.display_with.
  apply agrees_timing_start_with, stop_agrees, agrees_setHideTimer.
  split; cbn; [discriminate|]. intros _. exists params. auto.
Qed.

Lemma agrees_showNotification_with R this :
  display_agrees this -> display_agrees (Stopping.showNotification_with stop R this).
Proof.
  intros H. unfold Stopping.showNotification_with.
  assert (H' : display_agrees (set_heap_next (S (heap_next this)) this))
    by (revert H; apply agrees_frame; reflexivity).
  destruct (skipped_as_shown _ _); [exact H'|].
  destruct (skipped_as_queued _ _); [exact H'|].
  destruct (isShown _); [apply agrees_enqueue_with, H'|apply agrees_display_with].
Qed.

Lemma agrees_onHidden_with this : display_agrees (Stopping.onHidden_with stop this).
Proof.
  unfold Stopping.onHidden_with.
  match goal with
  | |- context [stop ?x] =>
      assert (H : display_agrees (stop x))
        by (apply stop_agrees; split; cbn; [auto|discriminate])
  end.
  destruct (callStack _) as [|next rest].
  - revert H. apply agrees_frame; reflexivity.
  - apply agrees_showNotification_with. revert H. apply agrees_frame; reflexivity.
Qed.

Lemma agrees_run_EndCallback_with c this :
  display_agrees this -> display_agrees (Stopping.run_EndCallback_with stop c this).
Proof.
  intros H. destruct c as [|cb|[|]]; cbn.
  - exact H.
  - apply agrees_call, agrees_onHidden_with.
  - apply agrees_onHidden_with.
  - exact H.
Qed.

End WithStop.

Lemma agrees_stopAnimation n :
  forall this, display_agrees this -> display_agrees (Stopping.stopAnimation n this).
Proof.
  induction n as [|n IH]; intros this H; cbn;
    destruct (animations this); try exact H.
  apply agrees_run_EndCallback_with; [exact IH|exact H].
Qed.

Lemma agrees_stop this : display_agrees this -> display_agrees (Stopping.stop this).
Proof. apply agrees_stopAnimation. Qed.

Lemma agrees_hideNotification cb this :
  display_agrees this -> display_agrees (Stopping.hideNotification cb this).
Proof. apply agrees_hideNotification_with, agrees_stop. Qed.

Lemma agrees_hideNotificationById id0 cb this :
  display_agrees this -> display_agrees (Stopping.hideNotificationById id0 cb this).
Proof.
  intros H. unfold Stopping.hideNotificationById.
  destruct (_ && _); [apply agrees_hideNotification|]; exact H.
Qed.

Lemma agrees_step e this :
  display_agrees this -> display_agrees (Stopping.step e this).
Proof.
  intros H. destruct e; cbn.
  - apply agrees_showNotification_with; [apply agrees_stop|exact H].
  - apply agrees_hideNotification, H.
  - apply agrees_hideNotificationById, H.
  - unfold Stopping.clearQueue.
    assert (H0 : display_agrees (set_callStack [] this))
      by (revert H; apply agrees_frame; reflexivity).
    destruct (truthy_bool _); [apply agrees_hideNotification|]; exact H0.
  - unfold Stopping.clearNotificationById.
    match goal with |- context [set_callStack ?q this] =>
      assert (H0 : display_agrees (set_callStack q this))
        by (revert H; apply agrees_frame; reflexivity) end.
    destruct (nullish _ true); [apply agrees_hideNotificationById|]; exact H0.
  - destruct (hideTimer this); [|exact H].
    apply agrees_hideNotification. revert H. apply agrees_frame; reflexivity.
  - destruct (animations this) as [|a l]; [exact H|].
    apply agrees_run_EndCallback_with; [apply agrees_stop|].
    revert H. apply agrees_frame; reflexivity.
  - unfold Stopping.onHandlerStateChange.
    match goal with |- context [if State_eqb ?s ACTIVE then clearTimeout this else this] =>
      assert (H0 : display_agrees (if State_eqb s ACTIVE then clearTimeout this else this))
    end.
    { destruct (State_eqb _ _); [|exact H]. revert H. apply agrees_frame; reflexivity. }
    destruct (negb _); [exact H0|].
    destruct (isSwipedOut _ _);
      [apply agrees_onStartHiding|];
      apply agrees_timing_start_with; try apply agrees_stop;
      apply agrees_setHideTimer, H0.
  - unfold Stopping.onPress.
    pose proof (agrees_call (showParams_get Types.onPress this) this H) as H0.
    destruct (showParams_get hideOnPress _) as [[|]|];
      [apply agrees_hideNotification| |apply agrees_hideNotification]; exact H0.
  - exact H.
  - apply (agrees_stopAnimation 1 (componentWillUnmount this)). exact H.
Qed.

(** X1.  On the stopping driver, with the parent free to pass new props, in
    every reachable state the flag [isShown] and the fields agree: when it is
    false, [currentParams] and [showParams] are [null]; when it is true,
    [currentParams] holds a request and [showParams] holds that request's
    parameters. *)
Theorem shown_agrees_with_fields (this : NotifierRoot) :
  Stopping.reachable this ->
  (isShown this = false -> currentParams this = None /\ showParams this = None)
  /\ (isShown this = true ->
        exists cur, currentParams this = Some cur
                    /\ showParams this = Some (base (fields cur))).
Proof.
  intros (props0 & es & ->).
  assert (H0 : display_agrees (constructor props0))
    by (split; cbn; [auto|discriminate]).
  revert H0. generalize (constructor props0).
  induction es as [|e es IH]; intros this H; cbn; [exact H|].
  apply IH, agrees_step, H.
Qed.

Lemma shown_agrees_with_fields_witness :
  exists cur, currentParams A_hiding_B_queued = Some cur
              /\ showParams A_hiding_B_queued = Some (base (fields cur)).
Proof.
  apply (shown_agrees_with_fields A_hiding_B_queued).
  - exists empty_params,
      [Stopping.ShowNotification request_A;
       Stopping.ShowNotification request_B;
       Stopping.HideNotification None].
    reflexivity.
  - vm_compute. reflexivity.
Defined.

(* ================================================================== *)
(** ** Showing and hiding on the stopping driver *)

Lemma stop_quiet this : animations this = [] -> Stopping.stop this = this.
Proof. apply stopAnimation_quiet. Qed.

Lemma harmless_frame this this' :
  animations this' = animations this -> harmless this -> harmless this'.
Proof. unfold harmless. intros ->. exact (fun H => H). Qed.

(** Starting an animation while only a harmless one runs. *)
Lemma timing_start_harmless a this :
  harmless this ->
  Stopping.timing_start_with Stopping.stop a this
  = set_animations [a] (set_log (log this ++ [AnimatedTimingStart a]) this).
Proof.
  intros H. unfold Stopping.timing_start_with. rewrite (stop_harmless this H).
  reflexivity.
Qed.

Lemma hideNotification_harmless cb this :
  harmless this ->
  isShown (Stopping.hideNotification cb this) = isShown this
  /\ currentParams (Stopping.hideNotification cb this) = currentParams this
  /\ showParams (Stopping.hideNotification cb this) = showParams this
  /\ callStack (Stopping.hideNotification cb this) = callStack this.
Proof.
  intros H. unfold Stopping.hideNotification, Stopping.hideNotification_with.
  destruct (_ || _); [auto|].
  rewrite (timing_start_harmless _ this H). unfold onStartHiding.
  rewrite call_log. cbn. auto.
Qed.

(** X15.  On the stopping driver, when nothing is displayed, the request is
    not dropped and what runs is harmless, [showNotification(R)] displays the
    request at once: [currentParams] and [showParams] are the request's,
    [isShown] is set, the enter animation is the one animation that runs, and
    neither the queue nor the hiding flag is touched. *)
Theorem show_while_idle_displays (this : NotifierRoot) (R : ShowNotificationParams) :
  isShown this = false ->
  skipped_as_queued (fields (merged R this)) this = false ->
  harmless this ->
  currentParams (Stopping.showNotification R this) = Some (merged R this)
  /\ showParams (Stopping.showNotification R this)
     = Some (base (fields (merged R this)))
  /\ isShown (Stopping.showNotification R this) = true
  /\ callStack (Stopping.showNotification R this) = callStack this
  /\ isHiding (Stopping.showNotification R this) = isHiding this
  /\ animations (Stopping.showNotification R this)
     = [enter_animation (Stopping.showNotification R this)]
  /\ log (Stopping.showNotification R this)
     = log this
         ++ [AnimatedTimingStart (enter_animation (Stopping.showNotification R this))]
  /\ toValue (enter_animation (Stopping.showNotification R this)) = MAX_TRANSLATE_Y
  /\ onEnd (enter_animation (Stopping.showNotification R this)) = NoCallback.
Proof.
  intros Hs K H.
  unfold Stopping.showNotification, Stopping.showNotification_with.
  change (skipped_as_queued (fields (merged R this))
            (set_heap_next (S (heap_next this)) this))
    with (skipped_as_queued (fields (merged R this)) this).
  unfold skipped_as_shown. cbn [isShown set_heap_next].
  rewrite K, Hs, andb_false_r. cbn [negb andb].
  unfold Stopping.display_with.
  match goal with
  | |- context [Stopping.stop (setHideTimer ?x)] =>
      set (armed := setHideTimer x)
  end.
  assert (Ha : harmless armed).
  { revert H. apply harmless_frame. unfold armed. rewrite animations_setHideTimer.
    reflexivity. }
  rewrite (stop_harmless armed Ha).
  rewrite timing_start_harmless by (intros a []).
  unfold armed, setHideTimer, clearTimeout, enter_animation, showParams_get.
  destruct (_ && _); cbn; repeat split; reflexivity.
Qed.

Lemma show_while_idle_displays_witness :
  callStack (Stopping.showNotification (request "a" Absent) (constructor empty_params))
  = []
  /\ isShown (Stopping.showNotification (request "a" Absent) (constructor empty_params))
     = true.
Proof.
  assert (H : harmless (constructor empty_params)) by (intros a []).
  pose proof (show_while_idle_displays (constructor empty_params)
                (request "a" Absent) eq_refl eq_refl H) as (_ & _ & H3 & H4 & _).
  exact (conj H4 H3).
Defined.

(** X16.  On the stopping driver, as long as what runs is harmless (an enter
    animation or a spring-back), [hideNotification], [hideNotificationById],
    a timer fire and a press never change [isShown], [currentParams],
    [showParams] or the queue: the displayed request is given up only when an
    exit or swipe-out animation ends or is stopped. *)
Theorem triggers_keep_display_and_queue (e : Stopping.Event) (this : NotifierRoot) :
  match e with
  | Stopping.HideNotification _ | Stopping.HideNotificationById _ _
  | Stopping.TimerFire | Stopping.Press => True
  | _ => False
  end ->
  harmless this ->
  isShown (Stopping.step e this) = isShown this
  /\ currentParams (Stopping.step e this) = currentParams this
  /\ showParams (Stopping.step e this) = showParams this
  /\ callStack (Stopping.step e this) = callStack this.
Proof.
  destruct e; cbn; intros G H; try contradiction.
  - apply hideNotification_harmless, H.
  - unfold Stopping.hideNotificationById.
    destruct (_ && _); [apply hideNotification_harmless, H|auto].
  - destruct (hideTimer this); [|auto].
    apply (hideNotification_harmless None (set_hideTimer None this)), H.
  - unfold Stopping.onPress. rewrite call_log.
    destruct (showParams_get hideOnPress _) as [[|]|]; cbn; auto;
      match goal with
      | |- context [Stopping.hideNotification None ?t] =>
          apply (hideNotification_harmless None t), H
      end.
Qed.

Lemma triggers_keep_display_and_queue_witness :
  callStack (Stopping.step Stopping.Press
               (Stopping.run [Stopping.ShowNotification request_A;
                              Stopping.ShowNotification request_B]
                             (constructor empty_params)))
  = callStack (Stopping.run [Stopping.ShowNotification request_A;
                             Stopping.ShowNotification request_B]
                            (constructor empty_params)).
Proof.
  assert (H : harmless (Stopping.run [Stopping.ShowNotification request_A;
                                      Stopping.ShowNotification request_B]
                                     (constructor empty_params))).
  { intros a Ha. vm_compute in Ha. destruct Ha as [<-|[]]. left. reflexivity. }
  exact (proj2 (proj2 (proj2 (triggers_keep_display_and_queue Stopping.Press _ I H)))).
Defined.

(* ================================================================== *)
(** ** The end of a hiding animation, on the stopping driver *)

(** [onHidden] when nothing runs and a request is at the front of the
    queue. *)
Lemma onHidden_quiet_front this next rest :
  animations this = [] ->
  callStack this = next :: rest ->
  (skipped_as_queued (spread_params (props this) (fields next))
                     (set_callStack rest this) = false ->
     currentParams (Stopping.onHidden this)
     = Some {| addr := heap_next this;
               fields := spread_params (props this) (fields next) |}
     /\ showParams (Stopping.onHidden this)
        = Some (base (spread_params (props this) (fields next)))
     /\ callStack (Stopping.onHidden this) = rest
     /\ isShown (Stopping.onHidden this) = true
     /\ isHiding (Stopping.onHidden this) = false
     /\ map onEnd (animations (Stopping.onHidden this)) = [NoCallback])
  /\ (skipped_as_queued (spread_params (props this) (fields next))
                        (set_callStack rest this) = true ->
        currentParams (Stopping.onHidden this) = None
        /\ isShown (Stopping.onHidden this) = false
        /\ callStack (Stopping.onHidden this) = rest
        /\ rest <> []
        /\ animations (Stopping.onHidden this) = []).
Proof.
  intros An E. unfold Stopping.onHidden.
  rewrite (onHidden_with_quiet Stopping.stop this stop_quiet An).
  unfold Stopping.onHidden_with. rewrite call_log.
  cbn [callStack set_currentParams set_showParams set_isHiding set_isShown set_log].
  rewrite E. unfold Stopping.showNotification_with, merged.
  cbn [fields props heap_next set_callStack set_currentParams set_showParams
         set_isHiding set_isShown set_log set_heap_next].
  match goal with
  | |- context [skipped_as_shown ?p ?t] =>
      assert (Sh : skipped_as_shown p t = false)
        by (unfold skipped_as_shown; cbn; rewrite andb_false_r; reflexivity);
      rewrite Sh
  end.
  match goal with
  | |- context [if skipped_as_queued ?p ?t then _ else _] =>
      assert (Sk : skipped_as_queued p t
                   = skipped_as_queued p (set_callStack rest this))
        by (apply skipped_as_queued_frame; reflexivity);
      rewrite Sk
  end.
  split; intros K; rewrite K.
  - cbn [isShown set_callStack set_currentParams set_showParams set_isHiding
           set_isShown set_log set_heap_next].
    unfold Stopping.display_with, Stopping.timing_start_with, setHideTimer,
      clearTimeout, enter_animation.
    destruct (_ && _); cbn; rewrite ?An; cbn; tauto.
  - cbn. rewrite ?An. refine (conj eq_refl (conj eq_refl (conj eq_refl (conj _ eq_refl)))).
    intros ->. unfold skipped_as_queued in K. cbn in K.
    rewrite !andb_false_r in K. discriminate.
Qed.

(** X7.  On the stopping driver, when an exit or swipe-out animation ends
    with a non-empty queue, the front request becomes the displayed one and
    the rest of the queue is kept in order.  Its properties are merged again
    with the props of that moment, its own properties winning; they are the
    ones it was queued with when the props did not change.  The one
    exception: a front request with [skipAlreadyInQueue] whose [id] is also
    queued behind it is dropped, and nothing is displayed although the queue
    is not empty. *)
Theorem animation_end_shows_front (this : NotifierRoot) (a : Animation)
  (next : Object) (rest : list Object) :
  animations this = [a] ->
  onEnd a = SwipeEnd true \/ (exists callback, onEnd a = HideEnd callback) ->
  callStack this = next :: rest ->
  (skipped_as_queued (spread_params (props this) (fields next))
                     (set_callStack rest this) = false ->
     currentParams (Stopping.step Stopping.AnimationEnd this)
     = Some {| addr := heap_next this;
               fields := spread_params (props this) (fields next) |}
     /\ showParams (Stopping.step Stopping.AnimationEnd this)
        = Some (base (spread_params (props this) (fields next)))
     /\ callStack (Stopping.step Stopping.AnimationEnd this) = rest
     /\ isShown (Stopping.step Stopping.AnimationEnd this) = true
     /\ isHiding (Stopping.step Stopping.AnimationEnd this) = false)
  /\ (skipped_as_queued (spread_params (props this) (fields next))
                        (set_callStack rest this) = true ->
        currentParams (Stopping.step Stopping.AnimationEnd this) = None
        /\ isShown (Stopping.step Stopping.AnimationEnd this) = false
        /\ callStack (Stopping.step Stopping.AnimationEnd this) = rest
        /\ rest <> [])
  /\ (forall given,
        fields next = spread_params (props this) given ->
        spread_params (props this) (fields next) = fields next).
Proof.
  intros An End E.
  pose proof (onHidden_quiet_front (set_animations [] this) next rest eq_refl E)
    as [F1 F2].
  assert (S : Stopping.step Stopping.AnimationEnd this
              = Stopping.onHidden (set_animations [] this)
              \/ exists callback,
                  Stopping.step Stopping.AnimationEnd this
                  = call callback (Stopping.onHidden (set_animations [] this))).
  { cbn [Stopping.step]. rewrite An.
    destruct End as [-> | (callback & ->)]; [left; reflexivity|].
    right. exists callback. reflexivity. }
  refine (conj _ (conj _ _)).
  - intros K. destruct (F1 K) as (H1 & H2 & H3 & H4 & H5 & _).
    destruct S as [-> | (callback & ->)]; rewrite ?call_log; cbn; tauto.
  - intros K. destruct (F2 K) as (H1 & H2 & H3 & H4 & _).
    destruct S as [-> | (callback & ->)]; rewrite ?call_log; cbn; tauto.
  - intros given ->. apply spread_params_idem.
Qed.

Lemma animation_end_shows_front_witness :
  option_map fields
    (currentParams (Stopping.step Stopping.AnimationEnd A_hiding_B_queued))
  = Some request_B
  /\ callStack (Stopping.step Stopping.AnimationEnd A_hiding_B_queued) = [].
Proof.
  assert (An : animations A_hiding_B_queued
               = [exit_animation None
                    (Stopping.run [Stopping.ShowNotification request_A;
                                   Stopping.ShowNotification request_B]
                                  (constructor empty_params))])
    by (vm_compute; reflexivity).
  assert (E : callStack A_hiding_B_queued = [{| addr := 1; fields := request_B |}])
    by (vm_compute; reflexivity).
  assert (K : skipped_as_queued
                (spread_params (props A_hiding_B_queued)
                               (fields {| addr := 1; fields := request_B |}))
                (set_callStack [] A_hiding_B_queued) = false)
    by (vm_compute; reflexivity).
  pose proof (proj1 (animation_end_shows_front A_hiding_B_queued _ _ []
                       An (or_intror (ex_intro _ None eq_refl)) E) K)
    as (H1 & _ & H3 & _).
  split; [|exact H3]. rewrite H1. vm_compute. reflexivity.
Defined.

(* ================================================================== *)
(** ** A drag that ends while nothing is shown *)

Lemma hideNotification_guarded_stopping cb this :
  isShown this = false \/ isHiding this = true ->
  Stopping.hideNotification cb this = this.
Proof.
  unfold Stopping.hideNotification, Stopping.hideNotification_with.
  intros [-> | ->]; [reflexivity|]. rewrite orb_true_r. reflexivity.
Qed.

(** Showing a request while a swipe-out animation runs and the queue is
    empty: the animation is stopped, its end runs [onHidden], and the request
    is given up before its enter animation starts. *)
Lemma display_while_swiping_out params this a :
  animations this = [a] ->
  onEnd a = SwipeEnd true ->
  callStack this = [] ->
  isShown (Stopping.display_with Stopping.stop params this) = false
  /\ currentParams (Stopping.display_with Stopping.stop params this) = None
  /\ isHiding (Stopping.display_with Stopping.stop params this) = false
  /\ map onEnd (animations (Stopping.display_with Stopping.stop params this))
     = [NoCallback]
  /\ calls (log (Stopping.display_with Stopping.stop params this))
     = calls (log this) ++ calls (invoked (get (Types.onHidden (base (fields params))))).
Proof.
  intros An End Q. unfold Stopping.display_with.
  match goal with
  | |- context [Stopping.stop (setHideTimer ?x)] => set (armed := setHideTimer x)
  end.
  assert (F : animations armed = [a] /\ callStack armed = []
              /\ showParams armed = Some (base (fields params))
              /\ log armed = log this).
  { unfold armed, setHideTimer, clearTimeout. destruct (_ && _); cbn; auto. }
  destruct F as (F1 & F2 & F3 & F4).
  assert (St : Stopping.stop armed
               = Stopping.onHidden_with (fun x => x) (set_animations [] armed)).
  { unfold Stopping.stop. cbn [Stopping.stopAnimation]. rewrite F1, End.
    cbn [Stopping.run_EndCallback_with].
    apply onHidden_with_quiet; [intros x Ex; rewrite Ex; reflexivity|reflexivity]. }
  rewrite St. unfold Stopping.onHidden_with. rewrite call_log.
  cbn [callStack set_currentParams set_showParams set_isHiding set_isShown set_log
         set_animations].
  rewrite F2. unfold showParams_get at 1.
  cbn [showParams set_animations]. rewrite F3.
  unfold Stopping.timing_start_with. rewrite stop_quiet by reflexivity.
  cbn. rewrite F4, !calls_app. cbn. rewrite app_nil_r.
  unfold showParams_get. cbn [showParams set_animations]. rewrite F3. auto.
Qed.

(** X13.  [onHandlerStateChange] does not look at [isShown]: on the idle
    component a drag that ends more than 20 pixels up starts the animation
    to the hidden position and sets [isHiding].  A notification shown while
    that animation runs is given up at once, because showing it stops the
    animation and so runs [onHidden]: its [onHidden] callback is called,
    afterwards nothing is displayed although its enter animation runs, and
    [hideNotification] does nothing. *)
Theorem swipe_while_idle_clears_next_shown (this : NotifierRoot)
  (ended : NativeEvent) (d : Q) (R : ShowNotificationParams)
  (callback : option Callback) :
  isShown this = false ->
  showParams this = None ->
  callStack this = [] ->
  animations this = [] ->
  oldState ended = ACTIVE ->
  translationY ended = Num d ->
  (d < - (20 # 1))%Q ->
  isShown (Stopping.onHandlerStateChange ended this) = false
  /\ isHiding (Stopping.onHandlerStateChange ended this) = true
  /\ map onEnd (animations (Stopping.onHandlerStateChange ended this))
     = [SwipeEnd true]
  /\ isShown (Stopping.showNotification R (Stopping.onHandlerStateChange ended this))
     = false
  /\ currentParams
       (Stopping.showNotification R (Stopping.onHandlerStateChange ended this))
     = None
  /\ isHiding (Stopping.showNotification R (Stopping.onHandlerStateChange ended this))
     = false
  /\ map onEnd
       (animations
          (Stopping.showNotification R (Stopping.onHandlerStateChange ended this)))
     = [NoCallback]
  /\ calls
       (log (Stopping.showNotification R (Stopping.onHandlerStateChange ended this)))
     = calls (log this)
         ++ calls (invoked (get (Types.onHidden (base (spread_params (props this) R)))))
  /\ Stopping.hideNotification callback
       (Stopping.showNotification R (Stopping.onHandlerStateChange ended this))
     = Stopping.showNotification R (Stopping.onHandlerStateChange ended this).
Proof.
  intros Hs Sp Q An Old Ty Lt.
  assert (Sw : forall t, showParams t = None -> isSwipedOut ended t = true).
  { intros t St. unfold isSwipedOut, showParams_get. rewrite St, Ty. cbn [nullish].
    apply lt_neg_iff. exact Lt. }
  set (swiped := Stopping.onHandlerStateChange ended this).
  assert (F : isShown swiped = false /\ isHiding swiped = true
              /\ callStack swiped = [] /\ props swiped = props this
              /\ calls (log swiped) = calls (log this)
              /\ exists a, animations swiped = [a] /\ onEnd a = SwipeEnd true).
  { unfold swiped, Stopping.onHandlerStateChange. rewrite Old. cbn [State_eqb negb].
    set (this0 := if State_eqb (ev_state ended) ACTIVE then _ else _).
    assert (F0 : showParams (setHideTimer this0) = None
                 /\ animations (setHideTimer this0) = []
                 /\ isShown (setHideTimer this0) = false
                 /\ callStack (setHideTimer this0) = []
                 /\ props (setHideTimer this0) = props this
                 /\ log (setHideTimer this0) = log this).
    { unfold this0, setHideTimer, clearTimeout.
      destruct (State_eqb _ _); destruct (_ && _); cbn; repeat split; auto. }
    destruct F0 as (G1 & G2 & G3 & G4 & G5 & G6).
    rewrite (Sw _ G1).
    rewrite timing_start_harmless by (intros a; rewrite G2; intros []).
    unfold onStartHiding. rewrite call_log. unfold showParams_get.
    cbn [showParams set_animations set_log]. rewrite !G1.
    cbn. rewrite G3, G4, G5, G6, !calls_app. cbn. rewrite !app_nil_r.
    refine (conj eq_refl (conj eq_refl (conj eq_refl (conj eq_refl (conj eq_refl _))))).
    eexists. split; reflexivity. }
  destruct F as (F1 & F2 & F3 & F4 & F5 & a & F6 & F7).
  assert (D : Stopping.showNotification R swiped
              = Stopping.display_with Stopping.stop (merged R swiped)
                  (set_heap_next (S (heap_next swiped)) swiped)).
  { unfold Stopping.showNotification, Stopping.showNotification_with,
      skipped_as_shown, skipped_as_queued.
    cbn [isShown callStack set_heap_next]. rewrite F1, F3. cbn [find].
    rewrite !andb_false_r. reflexivity. }
  pose proof (display_while_swiping_out (merged R swiped)
                (set_heap_next (S (heap_next swiped)) swiped) a F6 F7 F3)
    as (H1 & H2 & H3 & H4 & H5).
  rewrite <- D in H1, H2, H3, H4, H5.
  rewrite F6. cbn [map]. rewrite F7.
  refine (conj F1 (conj F2 (conj eq_refl (conj H1 (conj H2 (conj H3 (conj H4 (conj _ _)))))))).
  - rewrite H5. cbn [log set_heap_next merged fields]. rewrite F5, F4. reflexivity.
  - apply hideNotification_guarded_stopping. left. exact H1.
Qed.

Lemma swipe_while_idle_clears_next_shown_witness :
  isShown (Stopping.showNotification request_A
             (Stopping.onHandlerStateChange (drag_end (-21 # 1))
                (constructor empty_params))) = false
  /\ calls (log (Stopping.showNotification request_A
                   (Stopping.onHandlerStateChange (drag_end (-21 # 1))
                      (constructor empty_params)))) = ["hiddenA"].
Proof.
  pose proof (swipe_while_idle_clears_next_shown (constructor empty_params)
                (drag_end (-21 # 1)) (-21 # 1) request_A None
                eq_refl eq_refl eq_refl eq_refl eq_refl eq_refl eq_refl)
    as (_ & _ & _ & H4 & _ & _ & _ & H8 & _).
  split; [exact H4|]. rewrite H8. reflexivity.
Defined.
